(** * Peripheral6: the PCA9685 servo driver of [src/i2c/pca9685.py]

    A shallow embedding of the two classes of the script, [MCP2221A] and
    [PCA9685], and of the register traffic they produce.

    - Python integers are [Z]; [&], [|], [~], [>>] are [Z.land], [Z.lor],
      [Z.lnot], [Z.shiftr] (both sides use the infinite two's complement
      reading of negative numbers).
    - Python floats are IEEE binary64, i.e. Rocq's primitive [float].
    - Every method runs in a small exception-and-trace monad.  The only
      effects of the script are the child processes it starts with
      [subprocess.run] (i2cdetect, i2cset, i2cget) and [time.sleep]; each is
      recorded as an [event], in program order.  What a child process answers
      is not decided by the script: it is supplied by a [world], a function
      of the events issued so far.  [logging.debug] calls are not modelled
      (their arguments are always formattable). *)

From Stdlib Require Import ZArith List Lia Bool QArith.
From Stdlib Require Import Floats.PrimFloat Floats.FloatOps Floats.SpecFloat.
From Stdlib Require String Ascii DecimalString HexadecimalString.
From Stdlib Require DecimalZ HexadecimalZ DecimalPos HexadecimalPos.
Import ListNotations.
Import String.StringSyntax Ascii.AsciiSyntax.

Delimit Scope char_scope with char.
Delimit Scope string_scope with string.

#[local] Set Warnings "-inexact-float".
#[local] Open Scope Z_scope.

(** ** Python values *)

(** The exceptions that the modelled code paths can raise. *)
Inductive exn : Type :=
| OSError              (* subprocess.run could not start the tool *)
| UnicodeDecodeError   (* ret.stdout.decode(encoding="utf-8") *)
| ValueError           (* int(text, 16); math.floor(nan) *)
| ZeroDivisionError    (* float division by 0.0 *)
| OverflowError.       (* float(huge int); math.floor(inf) *)

Inductive result (A : Type) : Type :=
| Ok (a : A)
| Raise (e : exn).
Arguments Ok {A} a.
Arguments Raise {A} e.

(** [float(n)] for a Python int [n]: the nearest binary64 value, ties to
    even, and [OverflowError] when [n] is too large for a float. *)
Definition float_of_int (n : Z) : result float :=
  let x := SF2Prim (binary_normalize prec emax n 0 false) in
  if is_infinity x then Raise OverflowError else Ok x.

(** [x / y] on floats: Python raises on a zero divisor instead of returning
    an infinity or a nan. *)
Definition float_div (x y : float) : result float :=
  if (y =? 0)%float then Raise ZeroDivisionError else Ok (x / y)%float.

(** [int(math.floor(x))]: the largest integer below or equal to [x];
    [Z.shiftl] by a negative amount is the flooring right shift. *)
Definition math_floor (x : float) : result Z :=
  match Prim2SF x with
  | S754_zero _ => Ok 0
  | S754_finite s m e => Ok (Z.shiftl (if s then Z.neg m else Z.pos m) e)
  | S754_infinity _ => Raise OverflowError
  | S754_nan => Raise ValueError
  end.

(** The exact rational value of a finite float (used to read the argument of
    [time.sleep] as a duration). *)
Definition float_to_Q (x : float) : option Q :=
  match Prim2SF x with
  | S754_zero _ => Some 0%Q
  | S754_finite s m e =>
      let n := if s then Z.neg m else Z.pos m in
      Some (if 0 <=? e then inject_Z (n * 2 ^ e)
            else Qmake n (Z.to_pos (2 ^ (- e))))
  | _ => None
  end.

(** ** Effects: child processes and sleeps *)

(** One entry per effect.  The first four are the command lines handed to
    [subprocess.run], with the numbers that the script formats into them. *)
Inductive event : Type :=
| I2cDetect (bus addr : Z)              (* i2cdetect -y bus addr addr *)
| I2cSetRaw (bus addr raw : Z)          (* i2cset -y bus addr raw *)
| I2cSet (bus addr reg regval : Z)      (* i2cset -y bus addr reg regval *)
| I2cGet (bus addr reg : Z)             (* i2cget -y bus addr reg *)
| Sleep (secs : float).                 (* time.sleep(secs) *)

(** What the script can observe of the captured standard output: whether it
    decodes as UTF-8, and, if so, what [int(text, 16)] makes of the text
    ([None]: not a base-16 literal, a [ValueError]). *)
Inductive stdout : Type :=
| Undecodable
| Text (as_hex : option Z).

(** The outcome of one [subprocess.run(cmd, capture_output=True)].  There is
    no [check=True]: a non-zero return code is an ordinary completion. *)
Inductive process : Type :=
| NotStarted
| Completed (returncode : Z) (out : stdout).

(** The environment: given all events up to and including the command just
    issued, the outcome of that command. *)
Definition world : Type := list event -> process.

(** Computations: read the world, extend the trace, return or raise. *)
Definition io (A : Type) : Type := world -> list event -> result A * list event.

Definition ret {A : Type} (a : A) : io A := fun _ tr => (Ok a, tr).

Definition raise {A : Type} (e : exn) : io A := fun _ tr => (Raise e, tr).

Definition bind {A B : Type} (m : io A) (f : A -> io B) : io B :=
  fun w tr =>
    match m w tr with
    | (Ok a, tr') => f a w tr'
    | (Raise e, tr') => (Raise e, tr')
    end.

Definition lift {A : Type} (r : result A) : io A := fun _ tr => (r, tr).

Declare Scope io_scope.
Delimit Scope io_scope with io.
Notation "x <- m ;; k" := (bind m (fun x => k))
  (at level 61, m at next level, right associativity) : io_scope.
Notation "m ;; k" := (bind m (fun _ => k))
  (at level 61, right associativity) : io_scope.
#[local] Open Scope io_scope.

(** [subprocess.run(cmd, capture_output=True)] followed by
    [ret.stdout]: the captured output, or [OSError]. *)
Definition subprocess_run (cmd : event) : io stdout :=
  fun w tr =>
    let tr' := tr ++ [cmd] in
    match w tr' with
    | NotStarted => (Raise OSError, tr')
    | Completed _ out => (Ok out, tr')
    end.

(** [out.decode(encoding="utf-8")]; the text is kept as its base-16 reading. *)
Definition decode (out : stdout) : io (option Z) :=
  match out with
  | Undecodable => raise UnicodeDecodeError
  | Text h => ret h
  end.

(** [int(text, 16)] *)
Definition int16 (text : option Z) : io Z :=
  match text with
  | Some n => ret n
  | None => raise ValueError
  end.

Definition time_sleep (secs : float) : io unit :=
  fun _ tr => (Ok tt, tr ++ [Sleep secs]).

(** ** class MCP2221A *)

(** The instance attributes set by [MCP2221A.__init__]. *)
Record device : Type := { bus : Z; addr : Z }.

Definition detect (self : device) : io unit :=
  out <- subprocess_run (I2cDetect (bus self) (addr self)) ;;
  _ <- decode out ;;
  ret tt.

Definition MCP2221A_init (bus addr : Z) : io device :=
  let self := {| bus := bus; addr := addr |} in
  detect self ;;
  ret self.

(** ** class PCA9685(MCP2221A) *)

Definition ADDRESS : Z := 0x40.
Definition MODE1 : Z := 0x00.
Definition MODE2 : Z := 0x01.
Definition SUBADR1 : Z := 0x02.
Definition SUBADR2 : Z := 0x03.
Definition SUBADR3 : Z := 0x04.
Definition PRESCALE : Z := 0xFE.
Definition LED0_ON_L : Z := 0x06.
Definition LED0_ON_H : Z := 0x07.
Definition LED0_OFF_L : Z := 0x08.
Definition LED0_OFF_H : Z := 0x09.
Definition ALL_LED_ON_L : Z := 0xFA.
Definition ALL_LED_ON_H : Z := 0xFB.
Definition ALL_LED_OFF_L : Z := 0xFC.
Definition ALL_LED_OFF_H : Z := 0xFD.

Definition RESTART : Z := 0x80.
Definition SLEEP : Z := 0x10.
Definition ALLCALL : Z := 0x01.
Definition INVRT : Z := 0x10.
Definition OUTDRV : Z := 0x04.

Definition write_raw (self : device) (raw : Z) : io unit :=
  out <- subprocess_run (I2cSetRaw (bus self) (addr self) raw) ;;
  _ <- decode out ;;
  ret tt.

Definition write_reg (self : device) (reg regval : Z) : io unit :=
  out <- subprocess_run (I2cSet (bus self) (addr self) reg regval) ;;
  _ <- decode out ;;
  ret tt.

Definition read_reg (self : device) (reg : Z) : io Z :=
  out <- subprocess_run (I2cGet (bus self) (addr self) reg) ;;
  text <- decode out ;;
  int16 text.

Definition software_reset (self : device) : io unit :=
  write_raw self 0x06.

Definition set_all_pwm (self : device) (on off : Z) : io unit :=
  write_reg self ALL_LED_ON_L (Z.land on 0xFF) ;;
  write_reg self ALL_LED_ON_H (Z.shiftr on 8) ;;
  write_reg self ALL_LED_OFF_L (Z.land off 0xFF) ;;
  write_reg self ALL_LED_OFF_H (Z.shiftr off 8).

Definition set_pwm (self : device) (channel on off : Z) : io unit :=
  write_reg self (LED0_ON_L + 4 * channel) (Z.land on 0xFF) ;;
  write_reg self (LED0_ON_H + 4 * channel) (Z.shiftr on 8) ;;
  write_reg self (LED0_OFF_L + 4 * channel) (Z.land off 0xFF) ;;
  write_reg self (LED0_OFF_H + 4 * channel) (Z.shiftr off 8).

(** Lines 66 to 72 of [set_pwm_freq]: the pre-scale for [freq_hz],
    computed in binary64. *)
Definition prescale_of (freq_hz : Z) : result Z :=
  let prescaleval := 25000000.0%float in
  let prescaleval := (prescaleval / 4096.0)%float in
  match float_of_int freq_hz with
  | Raise e => Raise e
  | Ok f =>
      match float_div prescaleval f with
      | Raise e => Raise e
      | Ok prescaleval =>
          let prescaleval := (prescaleval - 1.0)%float in
          math_floor (prescaleval + 0.5)%float
      end
  end.

Definition set_pwm_freq (self : device) (freq_hz : Z) : io unit :=
  prescale <- lift (prescale_of freq_hz) ;;
  oldmode <- read_reg self MODE1 ;;
  let newmode := Z.lor (Z.land oldmode (Z.lnot RESTART)) SLEEP in
  write_reg self MODE1 newmode ;;
  write_reg self PRESCALE prescale ;;
  write_reg self MODE1 oldmode ;;
  time_sleep 0.005 ;;
  write_reg self MODE1 (Z.lor oldmode RESTART).

(** [PCA9685.__init__(bus, addr)] *)
Definition PCA9685_init (bus addr : Z) : io device :=
  self <- MCP2221A_init bus addr ;;
  set_all_pwm self 0 0 ;;
  write_reg self MODE2 OUTDRV ;;
  write_reg self MODE1 ALLCALL ;;
  time_sleep 0.005 ;;
  mode1 <- read_reg self MODE1 ;;
  let mode1 := Z.land mode1 (Z.lnot SLEEP) in
  write_reg self MODE1 mode1 ;;
  time_sleep 0.005 ;;
  ret self.

(** ** Callers: a session with one controller *)

(** The public operations a caller can invoke on a constructed controller
    (the script's [__main__] uses [software_reset], [set_pwm_freq],
    [set_all_pwm] and [set_pwm]). *)
Inductive call : Type :=
| SetPwmFreq (freq_hz : Z)
| SetPwm (channel on off : Z)
| SetAllPwm (on off : Z)
| SoftwareReset
| ReadReg (reg : Z).

Definition do_call (self : device) (c : call) : io unit :=
  match c with
  | SetPwmFreq freq_hz => set_pwm_freq self freq_hz
  | SetPwm channel on off => set_pwm self channel on off
  | SetAllPwm on off => set_all_pwm self on off
  | SoftwareReset => software_reset self
  | ReadReg reg => _ <- read_reg self reg ;; ret tt
  end.

(** Statements in sequence; an uncaught exception ends the run. *)
Fixpoint run_calls (self : device) (cs : list call) : io unit :=
  match cs with
  | [] => ret tt
  | c :: cs' => do_call self c ;; run_calls self cs'
  end.

(** [pwm = PCA9685(bus, addr)] followed by calls on [pwm]. *)
Definition session (bus addr : Z) (cs : list call) : io unit :=
  self <- PCA9685_init bus addr ;;
  run_calls self cs.

(** ** Observations on traces *)

(** The trace-level reading of "PRESCALE is written only while asleep":
    [asleep] is the SLEEP bit of the latest value written to MODE1 ([false]
    before any such write); every write to PRESCALE must find it set. *)
Fixpoint prescale_guarded (asleep : bool) (tr : list event) : bool :=
  match tr with
  | [] => true
  | I2cSet _ _ reg regval :: tr' =>
      if reg =? MODE1 then prescale_guarded (Z.testbit regval 4) tr'
      else if reg =? PRESCALE then asleep && prescale_guarded asleep tr'
      else prescale_guarded asleep tr'
  | _ :: tr' => prescale_guarded asleep tr'
  end.

(** The SLEEP bit of the latest MODE1 write of [tr], [asleep] if none. *)
Fixpoint asleep_after (asleep : bool) (tr : list event) : bool :=
  match tr with
  | [] => asleep
  | I2cSet _ _ reg regval :: tr' =>
      asleep_after (if reg =? MODE1 then Z.testbit regval 4 else asleep) tr'
  | _ :: tr' => asleep_after asleep tr'
  end.

Definition is_sleep (e : event) : bool :=
  match e with Sleep _ => true | _ => false end.

(** The argument of [time.sleep], in seconds, is at least [q]. *)
Definition sleeps_at_least (q : Q) (secs : float) : Prop :=
  match float_to_Q secs with
  | Some d => (q <= d)%Q
  | None => False
  end.

(** The pre-scale formula over exact arithmetic,
    floor(25000000 / (4096 * f) - 1 + 0.5), for [f > 0]. *)
Definition prescale_exact (f : Z) : Z :=
  (2 * 25000000 - 4096 * f) / (2 * 4096 * f).

(** The integers [lo], [lo+1], ..., [lo+n-1]. *)
Fixpoint Zrange (lo : Z) (n : nat) : list Z :=
  match n with
  | O => []
  | S n' => lo :: Zrange (lo + 1) n'
  end.

(** One step of the monotonicity table: both pre-scales are defined and the
    one at [f+1] is not above the one at [f]. *)
Definition prescale_step_ok (f : Z) : bool :=
  match prescale_of f, prescale_of (f + 1) with
  | Ok p, Ok p' => p' <=? p
  | _, _ => false
  end.

(** ** Sample worlds *)

(** A chip that acknowledges everything: every tool exits with status 0,
    i2cget prints the value [m], the other tools print nothing. *)
Definition answering (m : Z) : world :=
  fun tr =>
    match last tr (Sleep 0) with
    | I2cGet _ _ _ => Completed 0 (Text (Some m))
    | _ => Completed 0 (Text None)
    end.


(** Overwrite the exit status of every completed process by [rc]. *)
Definition with_status (rc : list event -> Z) (w : world) : world :=
  fun tr =>
    match w tr with
    | NotStarted => NotStarted
    | Completed _ out => Completed (rc tr) out
    end.

Definition pwm0 : device := {| bus := 0; addr := ADDRESS |}.

(** The traffic a computation adds never breaks the PRESCALE guard, whatever
    the sleep state it starts from. *)
Definition extends_guarded {A : Type} (m : io A) : Prop :=
  forall w tr, exists d,
    snd (m w tr) = tr ++ d /\ forall a, prescale_guarded a d = true.

(** A call that cannot reach PRESCALE through the channel arithmetic of
    [set_pwm]: LED0_ON_L + 4 * 62 = 0xFE is the PRESCALE register. *)
Definition avoids_prescale (c : call) : bool :=
  match c with
  | SetPwm channel _ _ => negb (channel =? 62)
  | _ => true
  end.

(** A computation that never looks at the exit status of its processes. *)
Definition status_blind {A : Type} (m : io A) : Prop :=
  forall rc w tr, m (with_status rc w) tr = m w tr.

(** A computation whose exceptions all satisfy [allowed]. *)
Definition raises_only {A : Type} (allowed : exn -> Prop) (m : io A) : Prop :=
  forall w tr e tr', m w tr = (Raise e, tr') -> allowed e.

(** What the process plumbing itself can raise. *)
Definition plumbing (e : exn) : Prop :=
  e = OSError \/ e = UnicodeDecodeError \/ e = ValueError.

(** The values written to PRESCALE along a trace, in order. *)
Fixpoint prescale_writes (tr : list event) : list Z :=
  match tr with
  | [] => []
  | I2cSet _ _ reg regval :: tr' =>
      if reg =? PRESCALE then regval :: prescale_writes tr'
      else prescale_writes tr'
  | _ :: tr' => prescale_writes tr'
  end.

(** The chip's reading of a low/high register pair as one tick count. *)
Definition ticks_of (low high : Z) : Z := Z.lor (Z.shiftl high 8) low.

(** Every process starts and prints decodable output. *)
Definition always_completes (w : world) : Prop :=
  forall tr, exists rc text, w tr = Completed rc (Text text).

(** ** The command lines *)

(** ["%d" % n] *)
Definition fmt_d (n : Z) : String.string :=
  DecimalString.NilZero.string_of_int (Z.to_int n).

(** ["%x" % n]: lower-case digits, a minus sign for negative numbers. *)
Definition fmt_x (n : Z) : String.string :=
  HexadecimalString.NilZero.string_of_int (Z.to_hex_int n).

Fixpoint zeros (k : nat) (s : String.string) : String.string :=
  match k with
  | O => s
  | S k' => String.String "0" (zeros k' s)
  end.

(** The [0] flag with a field width: zeros go after the sign, and the sign
    counts in the width. *)
Definition zero_pad (width : nat) (s : String.string) : String.string :=
  match s with
  | String.String "-" r =>
      String.String "-" (zeros (width - 1 - String.length r) r)
  | _ => zeros (width - String.length s) s
  end.

(** ["0x%02x" % n] *)
Definition fmt_0x02x (n : Z) : String.string :=
  String.append "0x" (zero_pad 2 (fmt_x n)).

(** The list [cmd] that each method hands to [subprocess.run]
    ([None] for a sleep, which starts no process). *)
Definition command_line (e : event) : option (list String.string) :=
  match e with
  | I2cDetect bus addr =>
      Some ["i2cdetect"; "-y"; fmt_d bus; fmt_0x02x addr; fmt_0x02x addr]%string
  | I2cSetRaw bus addr raw =>
      Some ["i2cset"; "-y"; fmt_d bus; fmt_0x02x addr; fmt_0x02x raw]%string
  | I2cSet bus addr reg regval =>
      Some ["i2cset"; "-y"; fmt_d bus; fmt_0x02x addr; fmt_0x02x reg;
            fmt_0x02x regval]%string
  | I2cGet bus addr reg =>
      Some ["i2cget"; "-y"; fmt_d bus; fmt_0x02x addr; fmt_0x02x reg]%string
  | Sleep _ => None
  end.

(** The number that a [0x...] argument denotes: an optional minus sign and
    lower-case base-16 digits after the prefix. *)
Definition read_0x (s : String.string) : option Z :=
  match s with
  | String.String "0" (String.String "x" r) =>
      option_map Z.of_hex_int (HexadecimalString.NilZero.int_of_string r)
  | _ => None
  end.

(** ** The script ([__main__]) *)

(** The choices of [--mode]. *)
Inductive mode : Type :=
| Stop | SwingCh0 | SwingCh1 | SwingAll | ForwardAll | BackwardAll.

Definition servo_min : Z := 150.
Definition servo_max : Z := 600.

(** How a run stands when it is observed: the script has run off its end, or
    it is still inside a [while True] loop. *)
Inductive progress : Type :=
| Exited
| Running.

(** [while True: body], observed after [rounds] iterations. *)
Fixpoint while_true (rounds : nat) (body : io unit) : io progress :=
  match rounds with
  | O => ret Running
  | S rounds' => body ;; while_true rounds' body
  end.

(** The script from [pwm = PCA9685(bus = args.bus)] on, for the parsed
    arguments [bus] and [m]; the loops are observed after [rounds]
    iterations.  The [print] calls are not modelled. *)
Definition main (bus : Z) (m : mode) (rounds : nat) : io progress :=
  pwm <- PCA9685_init bus ADDRESS ;;
  match m with
  | Stop =>
      software_reset pwm ;;
      ret Exited
  | ForwardAll =>
      set_pwm_freq pwm 60 ;;
      set_all_pwm pwm 0 servo_min ;;
      ret Exited
  | BackwardAll =>
      set_pwm_freq pwm 60 ;;
      set_all_pwm pwm 0 servo_max ;;
      ret Exited
  | SwingAll =>
      set_pwm_freq pwm 60 ;;
      while_true rounds
        (set_all_pwm pwm 0 servo_min ;;
         time_sleep 1 ;;
         set_all_pwm pwm 0 servo_max ;;
         time_sleep 1)
  | SwingCh0 | SwingCh1 =>
      let ch := match m with SwingCh0 => 0 | _ => 1 end in
      set_pwm_freq pwm 60 ;;
      while_true rounds
        (set_pwm pwm ch 0 servo_min ;;
         time_sleep 1 ;;
         set_pwm pwm ch 0 servo_max ;;
         time_sleep 1)
  end.

(** ** More observations on traces *)

(** The registers written along a trace, in order. *)
Fixpoint written_regs (tr : list event) : list Z :=
  match tr with
  | [] => []
  | I2cSet _ _ reg _ :: tr' => reg :: written_regs tr'
  | _ :: tr' => written_regs tr'
  end.

(** An event that is a sleep or a command for bus [b], address [a]. *)
Definition addresses (b a : Z) (e : event) : Prop :=
  match e with
  | I2cDetect bus addr => bus = b /\ addr = a
  | I2cSetRaw bus addr _ => bus = b /\ addr = a
  | I2cSet bus addr _ _ => bus = b /\ addr = a
  | I2cGet bus addr _ => bus = b /\ addr = a
  | Sleep _ => True
  end.

(** The numbers that an event puts on the wire are bytes. *)
Definition byte_sized (e : event) : Prop :=
  match e with
  | I2cDetect _ addr => 0 <= addr <= 255
  | I2cSetRaw _ addr raw => 0 <= addr <= 255 /\ 0 <= raw <= 255
  | I2cSet _ addr reg regval =>
      0 <= addr <= 255 /\ 0 <= reg <= 255 /\ 0 <= regval <= 255
  | I2cGet _ addr reg => 0 <= addr <= 255 /\ 0 <= reg <= 255
  | Sleep _ => True
  end.

(** A chip whose register reads are bytes. *)
Definition reads_bytes (w : world) : Prop :=
  forall tr rc m, w tr = Completed rc (Text (Some m)) -> 0 <= m <= 255.

(** The process outcome that makes the plumbing raise [e]. *)
Definition failed_with (p : process) (e : exn) : Prop :=
  match p, e with
  | NotStarted, OSError => True
  | Completed _ Undecodable, UnicodeDecodeError => True
  | Completed _ (Text None), ValueError => True
  | _, _ => False
  end.

(** Against every world in [W], everything that [m] adds to the trace
    satisfies [P], and a value it returns satisfies [Q]. *)
Definition produces {A : Type} (W : world -> Prop) (P : event -> Prop)
    (Q : A -> Prop) (m : io A) : Prop :=
  forall w tr, W w ->
    exists d, snd (m w tr) = tr ++ d /\ Forall P d /\
              forall a, fst (m w tr) = Ok a -> Q a.

Definition any_world (w : world) : Prop := True.

Definition any_value {A : Type} (a : A) : Prop := True.

Definition is_byte (n : Z) : Prop := 0 <= n <= 255.



(** A call whose arguments are in the domain of the chip: a frequency in
    [24,1526], a channel in [0,15], tick counts in [0,4095], a register
    number that is a byte. *)
Definition in_range (c : call) : bool :=
  match c with
  | SetPwmFreq freq_hz => (24 <=? freq_hz) && (freq_hz <=? 1526)
  | SetPwm channel on off =>
      (0 <=? channel) && (channel <=? 15) &&
      (0 <=? on) && (on <=? 4095) && (0 <=? off) && (off <=? 4095)
  | SetAllPwm on off =>
      (0 <=? on) && (on <=? 4095) && (0 <=? off) && (off <=? 4095)
  | SoftwareReset => true
  | ReadReg reg => (0 <=? reg) && (reg <=? 255)
  end.

(** As [answering], except that i2cset cannot be started for a write to
    PRESCALE. *)
Definition prescale_write_not_started (m : Z) : world :=
  fun tr =>
    match last tr (Sleep 0) with
    | I2cGet _ _ _ => Completed 0 (Text (Some m))
    | I2cSet _ _ reg _ =>
        if reg =? PRESCALE then NotStarted else Completed 0 (Text None)
    | _ => Completed 0 (Text None)
    end.

(** Whether a process ran at all: [subprocess.run] started the tool. *)
Definition ran (p : process) : bool :=
  match p with
  | NotStarted => false
  | Completed _ _ => true
  end.

(** The events of [evs], issued after [before], that took place: the sleeps
    and the commands whose tool was started.  A command whose tool could not
    be started never reached the bus. *)
Fixpoint started (w : world) (before evs : list event) : list event :=
  match evs with
  | [] => []
  | e :: evs' =>
      let rest := started w (before ++ [e]) evs' in
      match e with
      | Sleep _ => e :: rest
      | _ => if ran (w (before ++ [e])) then e :: rest else rest
      end
  end.

(** The traffic of a complete [set_pwm_freq]. *)
Definition freq_sequence (self : device) (oldmode prescale : Z) : list event :=
  [I2cGet (bus self) (addr self) MODE1;
   I2cSet (bus self) (addr self) MODE1
     (Z.lor (Z.land oldmode (Z.lnot RESTART)) SLEEP);
   I2cSet (bus self) (addr self) PRESCALE prescale;
   I2cSet (bus self) (addr self) MODE1 oldmode;
   Sleep 0.005;
   I2cSet (bus self) (addr self) MODE1 (Z.lor oldmode RESTART)].






(** * Properties *)

(** ** Running computations: inversion lemmas *)

Section Inversion.

Context {A B : Type}.

Lemma bind_ok (m : io A) (f : A -> io B) w tr b tr' :
  bind m f w tr = (Ok b, tr') ->
  exists a tr1, m w tr = (Ok a, tr1) /\ f a w tr1 = (Ok b, tr').
Proof.
  unfold bind. destruct (m w tr) as [[a | e] tr1]; intros H.
  - exists a, tr1. split; [reflexivity | exact H].
  - discriminate H.
Qed.

Lemma bind_raise (m : io A) (f : A -> io B) w tr e tr' :
  bind m f w tr = (Raise e, tr') ->
  m w tr = (Raise e, tr') \/
  exists a tr1, m w tr = (Ok a, tr1) /\ f a w tr1 = (Raise e, tr').
Proof.
  unfold bind. destruct (m w tr) as [[a | e1] tr1]; intros H.
  - right. exists a, tr1. split; [reflexivity | exact H].
  - left. injection H as -> ->. reflexivity.
Qed.

End Inversion.

Lemma subprocess_run_ok cmd w tr out tr' :
  subprocess_run cmd w tr = (Ok out, tr') ->
  tr' = tr ++ [cmd] /\ exists rc, w (tr ++ [cmd]) = Completed rc out.
Proof.
  unfold subprocess_run. destruct (w (tr ++ [cmd])) as [| rc o]; intros H.
  - discriminate H.
  - injection H as <- <-. split; [reflexivity | exists rc; reflexivity].
Qed.

Lemma write_reg_ok self reg regval w tr u tr' :
  write_reg self reg regval w tr = (Ok u, tr') ->
  tr' = tr ++ [I2cSet (bus self) (addr self) reg regval].
Proof.
  unfold write_reg. intros H.
  apply bind_ok in H as (out & tr1 & H1 & H).
  apply subprocess_run_ok in H1 as [-> _].
  destruct out as [| h]; cbn in H; [discriminate H | ].
  injection H as _ <-. reflexivity.
Qed.

Lemma read_reg_ok self reg w tr m tr' :
  read_reg self reg w tr = (Ok m, tr') ->
  tr' = tr ++ [I2cGet (bus self) (addr self) reg] /\
  exists rc, w tr' = Completed rc (Text (Some m)).
Proof.
  unfold read_reg. intros H.
  apply bind_ok in H as (out & tr1 & H1 & H).
  apply subprocess_run_ok in H1 as [-> [rc Hw]].
  destruct out as [| [n |]]; cbn in H; try discriminate H.
  injection H as <- <-. split; [reflexivity | exists rc; exact Hw].
Qed.

Lemma detect_ok self w tr u tr' :
  detect self w tr = (Ok u, tr') ->
  tr' = tr ++ [I2cDetect (bus self) (addr self)].
Proof.
  unfold detect. intros H.
  apply bind_ok in H as (out & tr1 & H1 & H).
  apply subprocess_run_ok in H1 as [-> _].
  destruct out as [| h]; cbn in H; [discriminate H | ].
  injection H as _ <-. reflexivity.
Qed.

Lemma time_sleep_ok secs w tr u tr' :
  time_sleep secs w tr = (Ok u, tr') -> tr' = tr ++ [Sleep secs].
Proof. unfold time_sleep. intros H. injection H as _ <-. reflexivity. Qed.

Lemma ret_ok {A : Type} (a b : A) w tr tr' :
  ret a w tr = (Ok b, tr') -> b = a /\ tr' = tr.
Proof. unfold ret. intros H. injection H as <- <-. split; reflexivity. Qed.

(** Peel a successful run apart, one statement at a time. *)
Ltac invert_run :=
  repeat match goal with
    | H : bind _ _ _ _ = (Ok _, _) |- _ =>
        let a := fresh "a" in let t := fresh "t" in let H1 := fresh "R" in
        apply bind_ok in H as (a & t & H1 & H)
    | H : write_reg _ _ _ _ _ = (Ok _, _) |- _ => apply write_reg_ok in H; subst
    | H : read_reg _ _ _ _ = (Ok _, _) |- _ =>
        let rc := fresh "rc" in let E := fresh "Hread" in
        apply read_reg_ok in H as [-> [rc E]]
    | H : detect _ _ _ = (Ok _, _) |- _ => apply detect_ok in H; subst
    | H : time_sleep _ _ _ = (Ok _, _) |- _ => apply time_sleep_ok in H; subst
    | H : ret _ _ _ = (Ok _, _) |- _ => apply ret_ok in H as [? ?]; subst
    end.

Lemma set_all_pwm_ok self on off w tr u tr' :
  set_all_pwm self on off w tr = (Ok u, tr') ->
  tr' = tr ++ [I2cSet (bus self) (addr self) ALL_LED_ON_L (Z.land on 0xFF);
               I2cSet (bus self) (addr self) ALL_LED_ON_H (Z.shiftr on 8);
               I2cSet (bus self) (addr self) ALL_LED_OFF_L (Z.land off 0xFF);
               I2cSet (bus self) (addr self) ALL_LED_OFF_H (Z.shiftr off 8)].
Proof.
  unfold set_all_pwm. intros H. invert_run.
  rewrite <- !app_assoc. reflexivity.
Qed.

Lemma set_pwm_ok self channel on off w tr u tr' :
  set_pwm self channel on off w tr = (Ok u, tr') ->
  tr' = tr ++ [I2cSet (bus self) (addr self) (LED0_ON_L + 4 * channel) (Z.land on 0xFF);
               I2cSet (bus self) (addr self) (LED0_ON_H + 4 * channel) (Z.shiftr on 8);
               I2cSet (bus self) (addr self) (LED0_OFF_L + 4 * channel) (Z.land off 0xFF);
               I2cSet (bus self) (addr self) (LED0_OFF_H + 4 * channel) (Z.shiftr off 8)].
Proof.
  unfold set_pwm. intros H. invert_run.
  rewrite <- !app_assoc. reflexivity.
Qed.

(** The whole power-on sequence of a construction that returns. *)
Lemma PCA9685_init_ok b a w tr self tr' :
  PCA9685_init b a w tr = (Ok self, tr') ->
  self = {| bus := b; addr := a |} /\
  exists m rc,
    w (tr ++ [I2cDetect b a;
              I2cSet b a ALL_LED_ON_L 0; I2cSet b a ALL_LED_ON_H 0;
              I2cSet b a ALL_LED_OFF_L 0; I2cSet b a ALL_LED_OFF_H 0;
              I2cSet b a MODE2 OUTDRV; I2cSet b a MODE1 ALLCALL;
              Sleep 0.005; I2cGet b a MODE1])
      = Completed rc (Text (Some m)) /\
    tr' = tr ++ [I2cDetect b a;
                 I2cSet b a ALL_LED_ON_L 0; I2cSet b a ALL_LED_ON_H 0;
                 I2cSet b a ALL_LED_OFF_L 0; I2cSet b a ALL_LED_OFF_H 0;
                 I2cSet b a MODE2 OUTDRV; I2cSet b a MODE1 ALLCALL;
                 Sleep 0.005; I2cGet b a MODE1;
                 I2cSet b a MODE1 (Z.land m (Z.lnot SLEEP));
                 Sleep 0.005].
Proof.
  unfold PCA9685_init, MCP2221A_init. intros H. invert_run.
  apply set_all_pwm_ok in R0. subst. cbn [bus addr] in *.
  split; [reflexivity | ].
  do 2 eexists. split.
  2: { rewrite <- !app_assoc. reflexivity. }
  rewrite <- !app_assoc in Hread. exact Hread.
Qed.

Lemma set_pwm_freq_ok self freq_hz w tr u tr' :
  set_pwm_freq self freq_hz w tr = (Ok u, tr') ->
  exists prescale oldmode rc,
    prescale_of freq_hz = Ok prescale /\
    w (tr ++ [I2cGet (bus self) (addr self) MODE1])
      = Completed rc (Text (Some oldmode)) /\
    tr' = tr ++ [I2cGet (bus self) (addr self) MODE1;
                 I2cSet (bus self) (addr self) MODE1
                   (Z.lor (Z.land oldmode (Z.lnot RESTART)) SLEEP);
                 I2cSet (bus self) (addr self) PRESCALE prescale;
                 I2cSet (bus self) (addr self) MODE1 oldmode;
                 Sleep 0.005;
                 I2cSet (bus self) (addr self) MODE1 (Z.lor oldmode RESTART)].
Proof.
  unfold set_pwm_freq. intros H.
  apply bind_ok in H as (prescale & t0 & Hp & H).
  unfold lift in Hp. injection Hp as Hp <-.
  invert_run.
  do 3 eexists. split; [exact Hp | ]. split; [exact Hread | ].
  rewrite <- !app_assoc. reflexivity.
Qed.

Lemma last_snoc {A : Type} (l : list A) (x d : A) : last (l ++ [x]) d = x.
Proof.
  induction l as [| y l IH]; [reflexivity | ].
  cbn [app last]. destruct (l ++ [x]) eqn:E.
  - destruct l; discriminate E.
  - exact IH.
Qed.

Lemma prescale_writes_app t1 t2 :
  prescale_writes (t1 ++ t2) = prescale_writes t1 ++ prescale_writes t2.
Proof.
  induction t1 as [| e t1 IH]; [reflexivity | ].
  destruct e; cbn [app prescale_writes]; try exact IH.
  destruct (reg =? PRESCALE); [cbn [app]; f_equal | ]; exact IH.
Qed.

Lemma sleeps_5ms : sleeps_at_least (5 # 1000) 0.005.
Proof. vm_compute. intros H. discriminate H. Qed.

Lemma ticks_of_split (ticks : Z) :
  ticks_of (Z.land ticks 0xFF) (Z.shiftr ticks 8) = ticks.
Proof.
  unfold ticks_of. apply Z.bits_inj'. intros n Hn.
  rewrite Z.lor_spec, Z.land_spec. change 0xFF with (Z.ones 8).
  destruct (Z.ltb_spec n 8) as [Hlt | Hge].
  - rewrite Z.shiftl_spec_low by lia.
    rewrite Z.ones_spec_low by lia.
    rewrite andb_true_r. reflexivity.
  - rewrite Z.shiftl_spec by lia. rewrite Z.shiftr_spec by lia.
    replace (n - 8 + 8) with n by lia.
    rewrite Z.ones_spec_high by lia.
    rewrite andb_false_r, orb_false_r. reflexivity.
Qed.

Lemma low_byte_range (ticks : Z) : 0 <= Z.land ticks 0xFF <= 255.
Proof.
  change 0xFF with (Z.ones 8). rewrite Z.land_ones by lia.
  change (2 ^ 8) with 256. change (Z.ones 8) with 255.
  pose proof (Z.mod_pos_bound ticks 256 eq_refl). lia.
Qed.

Lemma high_byte_range (ticks : Z) :
  0 <= ticks <= 4095 -> 0 <= Z.shiftr ticks 8 <= 15.
Proof.
  intros H. rewrite Z.shiftr_div_pow2 by lia.
  change (2 ^ 8) with 256.
  assert (0 <= ticks / 256) by (apply Z.div_pos; lia).
  assert (ticks / 256 < 16) by (apply Z.div_lt_upper_bound; lia).
  lia.
Qed.

(** ** C1: the pre-scale for 60 Hz *)

(** C1 (as amended).  For 60 Hz the pre-scale computed by lines 66 to 72 of
    [set_pwm_freq], floor(25000000.0 / 4096.0 / 60 - 1.0 + 0.5), is 101 (not
    25), the exact formula gives the same number, and 101 is the one value
    that a returning [set_pwm_freq(60)] writes to PRESCALE. *)
Theorem set_pwm_freq_60_prescale self w tr tr' :
  set_pwm_freq self 60 w tr = (Ok tt, tr') ->
  prescale_of 60 = Ok 101 /\
  prescale_exact 60 = 101 /\
  prescale_writes tr' = prescale_writes tr ++ [101].
Proof.
  intros H.
  apply set_pwm_freq_ok in H as (p & oldmode & rc & Hp & _ & ->).
  assert (E : prescale_of 60 = Ok 101) by (vm_compute; reflexivity).
  rewrite E in Hp. injection Hp as <-.
  split; [exact E | ]. split; [reflexivity | ].
  rewrite prescale_writes_app. reflexivity.
Qed.

Lemma set_pwm_freq_60_prescale_witness :
  set_pwm_freq pwm0 60 (answering 0x01) []
    = (Ok tt, [I2cGet 0 0x40 0x00; I2cSet 0 0x40 0x00 0x11;
               I2cSet 0 0x40 0xFE 101; I2cSet 0 0x40 0x00 0x01;
               Sleep 0.005; I2cSet 0 0x40 0x00 0x81]) /\
  prescale_of 60 = Ok 101 /\
  prescale_exact 60 = 101 /\
  prescale_writes [I2cGet 0 0x40 0x00; I2cSet 0 0x40 0x00 0x11;
                   I2cSet 0 0x40 0xFE 101; I2cSet 0 0x40 0x00 0x01;
                   Sleep 0.005; I2cSet 0 0x40 0x00 0x81]
    = prescale_writes [] ++ [101].
Proof.
  split; [vm_compute; reflexivity | ].
  apply (set_pwm_freq_60_prescale pwm0 (answering 0x01) []).
  vm_compute. reflexivity.
Defined.

(** The reference value 25 of the specification is not what the code
    computes for 60 Hz, and not what reaches the PRESCALE register. *)
Lemma prescale_60_is_not_25 :
  prescale_of 60 = Ok 101 /\
  prescale_of 60 <> Ok 25 /\
  prescale_writes (snd (set_pwm_freq pwm0 60 (answering 0x01) [])) = [101].
Proof.
  split; [vm_compute; reflexivity | ].
  split; [vm_compute; intros H; discriminate H | ].
  vm_compute. reflexivity.
Qed.

(** ** C2: the transactions of [set_pwm_freq(60)] *)

Lemma bind_step {A B : Type} (m : io A) (f : A -> io B) w tr a tr1 :
  m w tr = (Ok a, tr1) -> bind m f w tr = f a w tr1.
Proof. unfold bind. intros ->. reflexivity. Qed.

Lemma write_reg_answering self reg regval m tr :
  write_reg self reg regval (answering m) tr
  = (Ok tt, tr ++ [I2cSet (bus self) (addr self) reg regval]).
Proof.
  unfold write_reg, bind, subprocess_run, answering.
  rewrite last_snoc. reflexivity.
Qed.

Lemma read_reg_answering self reg m tr :
  read_reg self reg (answering m) tr
  = (Ok m, tr ++ [I2cGet (bus self) (addr self) reg]).
Proof.
  unfold read_reg, bind, subprocess_run, answering.
  rewrite last_snoc. reflexivity.
Qed.

(** Under a chip that acknowledges everything and reads back [oldmode],
    [set_pwm_freq(60)] returns, for every [oldmode] and from every trace. *)
Lemma set_pwm_freq_60_answering self oldmode tr :
  set_pwm_freq self 60 (answering oldmode) tr
  = (Ok tt,
     tr ++ [I2cGet (bus self) (addr self) MODE1;
            I2cSet (bus self) (addr self) MODE1
              (Z.lor (Z.land oldmode (Z.lnot RESTART)) SLEEP);
            I2cSet (bus self) (addr self) PRESCALE 101;
            I2cSet (bus self) (addr self) MODE1 oldmode;
            Sleep 0.005;
            I2cSet (bus self) (addr self) MODE1 (Z.lor oldmode RESTART)]).
Proof.
  unfold set_pwm_freq.
  replace (prescale_of 60) with (@Ok Z 101) by (vm_compute; reflexivity).
  rewrite (bind_step _ _ _ _ 101 tr) by reflexivity.
  rewrite (bind_step _ _ _ _ _ _ (read_reg_answering _ _ _ _)).
  rewrite (bind_step _ _ _ _ _ _ (write_reg_answering _ _ _ _ _)).
  rewrite (bind_step _ _ _ _ _ _ (write_reg_answering _ _ _ _ _)).
  rewrite (bind_step _ _ _ _ _ _ (write_reg_answering _ _ _ _ _)).
  rewrite (bind_step _ _ _ _ tt _ eq_refl).
  rewrite write_reg_answering.
  rewrite <- !app_assoc. reflexivity.
Qed.

(** C2 (as amended).  Every [set_pwm_freq(60)] that returns has issued, for
    the value [oldmode] that the MODE1 read produced, exactly: one read of
    MODE1, then the writes MODE1 = (oldmode & ~RESTART) | SLEEP,
    PRESCALE = 101, MODE1 = oldmode, MODE1 = oldmode | RESTART, in this
    order, with exactly one suspension, of at least 5 ms, between the third
    and the fourth write, and nothing else. *)
Theorem set_pwm_freq_60_sequence self w tr tr' :
  set_pwm_freq self 60 w tr = (Ok tt, tr') ->
  exists oldmode rc,
    w (tr ++ [I2cGet (bus self) (addr self) MODE1])
      = Completed rc (Text (Some oldmode)) /\
    tr' = tr ++ [I2cGet (bus self) (addr self) MODE1;
                 I2cSet (bus self) (addr self) MODE1
                   (Z.lor (Z.land oldmode (Z.lnot RESTART)) SLEEP);
                 I2cSet (bus self) (addr self) PRESCALE 101;
                 I2cSet (bus self) (addr self) MODE1 oldmode;
                 Sleep 0.005;
                 I2cSet (bus self) (addr self) MODE1 (Z.lor oldmode RESTART)] /\
    sleeps_at_least (5 # 1000) 0.005.
Proof.
  intros H.
  apply set_pwm_freq_ok in H as (p & oldmode & rc & Hp & Hw & ->).
  replace (prescale_of 60) with (@Ok Z 101) in Hp by (vm_compute; reflexivity).
  injection Hp as <-.
  exists oldmode, rc. split; [exact Hw | ]. split; [reflexivity | ].
  exact sleeps_5ms.
Qed.

Lemma set_pwm_freq_60_sequence_witness :
  set_pwm_freq pwm0 60 (answering 0x21) [] 
    = (Ok tt, [I2cGet 0 0x40 0x00; I2cSet 0 0x40 0x00 0x31;
               I2cSet 0 0x40 0xFE 101; I2cSet 0 0x40 0x00 0x21;
               Sleep 0.005; I2cSet 0 0x40 0x00 0xA1]) /\
  exists oldmode rc,
    answering 0x21 ([] ++ [I2cGet (bus pwm0) (addr pwm0) MODE1])
      = Completed rc (Text (Some oldmode)) /\
    [I2cGet 0 0x40 0x00; I2cSet 0 0x40 0x00 0x31;
     I2cSet 0 0x40 0xFE 101; I2cSet 0 0x40 0x00 0x21;
     Sleep 0.005; I2cSet 0 0x40 0x00 0xA1]
    = [] ++ [I2cGet (bus pwm0) (addr pwm0) MODE1;
             I2cSet (bus pwm0) (addr pwm0) MODE1
               (Z.lor (Z.land oldmode (Z.lnot RESTART)) SLEEP);
             I2cSet (bus pwm0) (addr pwm0) PRESCALE 101;
             I2cSet (bus pwm0) (addr pwm0) MODE1 oldmode;
             Sleep 0.005;
             I2cSet (bus pwm0) (addr pwm0) MODE1 (Z.lor oldmode RESTART)] /\
    sleeps_at_least (5 # 1000) 0.005.
Proof.
  split; [vm_compute; reflexivity | ].
  apply (set_pwm_freq_60_sequence pwm0 (answering 0x21) []).
  vm_compute. reflexivity.
Defined.

(** A run of [set_pwm_freq(60)]: the value written to PRESCALE is 101, not
    25, and the call suspends once, not twice. *)
Lemma set_pwm_freq_60_one_sleep :
  set_pwm_freq pwm0 60 (answering 0x21) []
    = (Ok tt, [I2cGet 0 0x40 0x00; I2cSet 0 0x40 0x00 0x31;
               I2cSet 0 0x40 0xFE 101; I2cSet 0 0x40 0x00 0x21;
               Sleep 0.005; I2cSet 0 0x40 0x00 0xA1]) /\
  length (filter is_sleep (snd (set_pwm_freq pwm0 60 (answering 0x21) []))) = 1%nat /\
  prescale_writes (snd (set_pwm_freq pwm0 60 (answering 0x21) [])) <> [25].
Proof.
  split; [vm_compute; reflexivity | ].
  split; [vm_compute; reflexivity | ].
  vm_compute. intros H. discriminate H.
Qed.

(** ** C6 and C10: the power-on sequence *)

Lemma clear_sleep_bits (m : Z) :
  Z.testbit (Z.land m (Z.lnot SLEEP)) 4 = false /\
  forall i, i <> 4 -> Z.testbit (Z.land m (Z.lnot SLEEP)) i = Z.testbit m i.
Proof.
  split.
  - rewrite Z.land_spec, Z.lnot_spec by lia.
    change (Z.testbit SLEEP 4) with true. apply andb_false_r.
  - intros i Hi. destruct (Z.ltb_spec i 0) as [Hneg | Hpos].
    + rewrite !Z.testbit_neg_r by exact Hneg. reflexivity.
    + rewrite Z.land_spec, Z.lnot_spec by exact Hpos.
      change SLEEP with (2 ^ 4). rewrite Z.pow2_bits_eqb by lia.
      destruct (Z.eqb_spec 4 i) as [E | _]; [lia | ].
      apply andb_true_r.
Qed.

(** C6.  A construction that returns has performed, in order: the probe,
    the four ALL_LED writes of (on=0, off=0), MODE2 = OUTDRV, MODE1 = ALLCALL,
    a suspension of at least 5 ms, a read of MODE1 and the write-back of the
    value read with SLEEP cleared, and a second suspension of at least 5 ms. *)
Theorem PCA9685_init_sequence b a w tr self tr' :
  PCA9685_init b a w tr = (Ok self, tr') ->
  exists m rc,
    w (tr ++ [I2cDetect b a;
              I2cSet b a ALL_LED_ON_L 0; I2cSet b a ALL_LED_ON_H 0;
              I2cSet b a ALL_LED_OFF_L 0; I2cSet b a ALL_LED_OFF_H 0;
              I2cSet b a MODE2 0x04; I2cSet b a MODE1 0x01;
              Sleep 0.005; I2cGet b a MODE1])
      = Completed rc (Text (Some m)) /\
    tr' = tr ++ [I2cDetect b a;
                 I2cSet b a ALL_LED_ON_L 0; I2cSet b a ALL_LED_ON_H 0;
                 I2cSet b a ALL_LED_OFF_L 0; I2cSet b a ALL_LED_OFF_H 0;
                 I2cSet b a MODE2 0x04; I2cSet b a MODE1 0x01;
                 Sleep 0.005; I2cGet b a MODE1;
                 I2cSet b a MODE1 (Z.land m (Z.lnot SLEEP));
                 Sleep 0.005] /\
    Z.testbit (Z.land m (Z.lnot SLEEP)) 4 = false /\
    (forall i, i <> 4 -> Z.testbit (Z.land m (Z.lnot SLEEP)) i = Z.testbit m i) /\
    sleeps_at_least (5 # 1000) 0.005 /\
    OUTDRV = 0x04 /\ ALLCALL = 0x01 /\
    [ALL_LED_ON_L; ALL_LED_ON_H; ALL_LED_OFF_L; ALL_LED_OFF_H]
      = [0xFA; 0xFB; 0xFC; 0xFD].
Proof.
  intros H. apply PCA9685_init_ok in H as (_ & m & rc & Hw & ->).
  exists m, rc. split; [exact Hw | ]. split; [reflexivity | ].
  destruct (clear_sleep_bits m) as [H4 Hother].
  repeat split; try assumption. exact sleeps_5ms.
Qed.

Lemma PCA9685_init_sequence_witness :
  PCA9685_init 0 0x40 (answering 0x11) []
    = (Ok pwm0,
       [I2cDetect 0 0x40;
        I2cSet 0 0x40 0xFA 0; I2cSet 0 0x40 0xFB 0;
        I2cSet 0 0x40 0xFC 0; I2cSet 0 0x40 0xFD 0;
        I2cSet 0 0x40 0x01 0x04; I2cSet 0 0x40 0x00 0x01;
        Sleep 0.005; I2cGet 0 0x40 0x00;
        I2cSet 0 0x40 0x00 0x01; Sleep 0.005]) /\
  exists m rc,
    answering 0x11
      ([] ++ [I2cDetect 0 0x40;
              I2cSet 0 0x40 ALL_LED_ON_L 0; I2cSet 0 0x40 ALL_LED_ON_H 0;
              I2cSet 0 0x40 ALL_LED_OFF_L 0; I2cSet 0 0x40 ALL_LED_OFF_H 0;
              I2cSet 0 0x40 MODE2 0x04; I2cSet 0 0x40 MODE1 0x01;
              Sleep 0.005; I2cGet 0 0x40 MODE1])
      = Completed rc (Text (Some m)) /\
    [I2cDetect 0 0x40;
     I2cSet 0 0x40 0xFA 0; I2cSet 0 0x40 0xFB 0;
     I2cSet 0 0x40 0xFC 0; I2cSet 0 0x40 0xFD 0;
     I2cSet 0 0x40 0x01 0x04; I2cSet 0 0x40 0x00 0x01;
     Sleep 0.005; I2cGet 0 0x40 0x00;
     I2cSet 0 0x40 0x00 0x01; Sleep 0.005]
    = [] ++ [I2cDetect 0 0x40;
             I2cSet 0 0x40 ALL_LED_ON_L 0; I2cSet 0 0x40 ALL_LED_ON_H 0;
             I2cSet 0 0x40 ALL_LED_OFF_L 0; I2cSet 0 0x40 ALL_LED_OFF_H 0;
             I2cSet 0 0x40 MODE2 0x04; I2cSet 0 0x40 MODE1 0x01;
             Sleep 0.005; I2cGet 0 0x40 MODE1;
             I2cSet 0 0x40 MODE1 (Z.land m (Z.lnot SLEEP));
             Sleep 0.005] /\
    Z.testbit (Z.land m (Z.lnot SLEEP)) 4 = false /\
    (forall i, i <> 4 -> Z.testbit (Z.land m (Z.lnot SLEEP)) i = Z.testbit m i) /\
    sleeps_at_least (5 # 1000) 0.005 /\
    OUTDRV = 0x04 /\ ALLCALL = 0x01 /\
    [ALL_LED_ON_L; ALL_LED_ON_H; ALL_LED_OFF_L; ALL_LED_OFF_H]
      = [0xFA; 0xFB; 0xFC; 0xFD].
Proof.
  split; [vm_compute; reflexivity | ].
  apply (PCA9685_init_sequence 0 0x40 (answering 0x11) [] pwm0).
  vm_compute. reflexivity.
Defined.

(** C10.  The wake-up step of a construction that returns is a
    read-modify-write of MODE1 that changes the SLEEP bit only: the value
    written back right after the read of [m] is [m & ~0x10]; bit 4 of it is
    clear and every other bit, RESTART, ALLCALL and the sub-address bits
    among them, is the bit of [m]. *)
Theorem PCA9685_init_wake_up b a w tr self tr' :
  PCA9685_init b a w tr = (Ok self, tr') ->
  exists m rc before written,
    w (before ++ [I2cGet b a MODE1]) = Completed rc (Text (Some m)) /\
    tr' = before ++ [I2cGet b a MODE1; I2cSet b a MODE1 written; Sleep 0.005] /\
    written = Z.land m (Z.lnot 0x10) /\
    Z.testbit written 4 = false /\
    (forall i, i <> 4 -> Z.testbit written i = Z.testbit m i) /\
    Z.land written RESTART = Z.land m RESTART /\
    Z.land written ALLCALL = Z.land m ALLCALL /\
    Z.land written 0x0E = Z.land m 0x0E.
Proof.
  intros H. apply PCA9685_init_ok in H as (_ & m & rc & Hw & ->).
  exists m, rc.
  exists (tr ++ [I2cDetect b a;
                 I2cSet b a ALL_LED_ON_L 0; I2cSet b a ALL_LED_ON_H 0;
                 I2cSet b a ALL_LED_OFF_L 0; I2cSet b a ALL_LED_OFF_H 0;
                 I2cSet b a MODE2 OUTDRV; I2cSet b a MODE1 ALLCALL;
                 Sleep 0.005]).
  exists (Z.land m (Z.lnot SLEEP)).
  destruct (clear_sleep_bits m) as [H4 Hother].
  split; [rewrite <- app_assoc; exact Hw | ].
  split; [rewrite <- app_assoc; reflexivity | ].
  split; [reflexivity | ].
  split; [exact H4 | ]. split; [exact Hother | ].
  repeat split; rewrite <- Z.land_assoc; reflexivity.
Qed.

Lemma PCA9685_init_wake_up_witness :
  PCA9685_init 0 0x40 (answering 0xB1) []
    = (Ok pwm0,
       [I2cDetect 0 0x40;
        I2cSet 0 0x40 0xFA 0; I2cSet 0 0x40 0xFB 0;
        I2cSet 0 0x40 0xFC 0; I2cSet 0 0x40 0xFD 0;
        I2cSet 0 0x40 0x01 0x04; I2cSet 0 0x40 0x00 0x01;
        Sleep 0.005; I2cGet 0 0x40 0x00;
        I2cSet 0 0x40 0x00 0xA1; Sleep 0.005]) /\
  exists m rc before written,
    answering 0xB1 (before ++ [I2cGet 0 0x40 MODE1])
      = Completed rc (Text (Some m)) /\
    [I2cDetect 0 0x40;
     I2cSet 0 0x40 0xFA 0; I2cSet 0 0x40 0xFB 0;
     I2cSet 0 0x40 0xFC 0; I2cSet 0 0x40 0xFD 0;
     I2cSet 0 0x40 0x01 0x04; I2cSet 0 0x40 0x00 0x01;
     Sleep 0.005; I2cGet 0 0x40 0x00;
     I2cSet 0 0x40 0x00 0xA1; Sleep 0.005]
    = before ++ [I2cGet 0 0x40 MODE1; I2cSet 0 0x40 MODE1 written; Sleep 0.005] /\
    written = Z.land m (Z.lnot 0x10) /\
    Z.testbit written 4 = false /\
    (forall i, i <> 4 -> Z.testbit written i = Z.testbit m i) /\
    Z.land written RESTART = Z.land m RESTART /\
    Z.land written ALLCALL = Z.land m ALLCALL /\
    Z.land written 0x0E = Z.land m 0x0E.
Proof.
  split; [vm_compute; reflexivity | ].
  apply (PCA9685_init_wake_up 0 0x40 (answering 0xB1) [] pwm0).
  vm_compute. reflexivity.
Defined.

Lemma detect_answering self m tr :
  detect self (answering m) tr
  = (Ok tt, tr ++ [I2cDetect (bus self) (addr self)]).
Proof.
  unfold detect, bind, subprocess_run, answering.
  rewrite last_snoc. reflexivity.
Qed.

(** Under a chip that acknowledges everything and reads back [m],
    construction returns, for every [m] and from every trace. *)
Lemma PCA9685_init_answering b a m tr :
  PCA9685_init b a (answering m) tr
  = (Ok {| bus := b; addr := a |},
     tr ++ [I2cDetect b a;
            I2cSet b a ALL_LED_ON_L 0; I2cSet b a ALL_LED_ON_H 0;
            I2cSet b a ALL_LED_OFF_L 0; I2cSet b a ALL_LED_OFF_H 0;
            I2cSet b a MODE2 OUTDRV; I2cSet b a MODE1 ALLCALL;
            Sleep 0.005; I2cGet b a MODE1;
            I2cSet b a MODE1 (Z.land m (Z.lnot SLEEP));
            Sleep 0.005]).
Proof.
  unfold PCA9685_init, MCP2221A_init, set_all_pwm.
  rewrite (bind_step _ _ _ _ {| bus := b; addr := a |}
             (tr ++ [I2cDetect b a])).
  2: { rewrite (bind_step _ _ _ _ _ _ (detect_answering _ _ _)). reflexivity. }
  rewrite (bind_step _ _ _ _ tt
             (tr ++ [I2cDetect b a;
                     I2cSet b a ALL_LED_ON_L 0; I2cSet b a ALL_LED_ON_H 0;
                     I2cSet b a ALL_LED_OFF_L 0; I2cSet b a ALL_LED_OFF_H 0])).
  2: { rewrite (bind_step _ _ _ _ _ _ (write_reg_answering _ _ _ _ _)).
       rewrite (bind_step _ _ _ _ _ _ (write_reg_answering _ _ _ _ _)).
       rewrite (bind_step _ _ _ _ _ _ (write_reg_answering _ _ _ _ _)).
       rewrite write_reg_answering. rewrite <- !app_assoc. reflexivity. }
  rewrite (bind_step _ _ _ _ _ _ (write_reg_answering _ _ _ _ _)).
  rewrite (bind_step _ _ _ _ _ _ (write_reg_answering _ _ _ _ _)).
  rewrite (bind_step _ _ _ _ tt _ eq_refl).
  rewrite (bind_step _ _ _ _ _ _ (read_reg_answering _ _ _ _)).
  rewrite (bind_step _ _ _ _ _ _ (write_reg_answering _ _ _ _ _)).
  rewrite (bind_step _ _ _ _ tt _ eq_refl).
  unfold ret. rewrite <- !app_assoc. reflexivity.
Qed.

(** ** C7 and C8: the four byte writes of [set_pwm] and [set_all_pwm] *)

(** C7.  For tick counts in [0,4095], the low and high bytes that [set_pwm]
    and [set_all_pwm] write are [ticks & 0xFF] and [ticks >> 8], and the
    pair reads back as the tick count: [(high << 8) | low = ticks]. *)
Theorem split_ticks_roundtrip self channel on off w tr tr' :
  0 <= on <= 4095 ->
  0 <= off <= 4095 ->
  set_pwm self channel on off w tr = (Ok tt, tr') \/
  set_all_pwm self on off w tr = (Ok tt, tr') ->
  exists r1 r2 r3 r4 on_low on_high off_low off_high,
    tr' = tr ++ [I2cSet (bus self) (addr self) r1 on_low;
                 I2cSet (bus self) (addr self) r2 on_high;
                 I2cSet (bus self) (addr self) r3 off_low;
                 I2cSet (bus self) (addr self) r4 off_high] /\
    on_low = Z.land on 0xFF /\ on_high = Z.shiftr on 8 /\
    off_low = Z.land off 0xFF /\ off_high = Z.shiftr off 8 /\
    Z.lor (Z.shiftl on_high 8) on_low = on /\
    Z.lor (Z.shiftl off_high 8) off_low = off /\
    0 <= on_low <= 255 /\ 0 <= on_high <= 15 /\
    0 <= off_low <= 255 /\ 0 <= off_high <= 15.
Proof.
  intros Hon Hoff [H | H];
    [apply set_pwm_ok in H | apply set_all_pwm_ok in H]; subst tr';
    do 4 eexists; exists (Z.land on 0xFF), (Z.shiftr on 8),
      (Z.land off 0xFF), (Z.shiftr off 8);
    (split; [reflexivity | ]);
    repeat (split; [reflexivity | ]);
    (split; [exact (ticks_of_split on) | ]);
    (split; [exact (ticks_of_split off) | ]);
    auto using low_byte_range, high_byte_range.
Qed.

Lemma split_ticks_roundtrip_witness :
  set_pwm pwm0 1 0 600 (answering 0) []
    = (Ok tt, [I2cSet 0 0x40 0x0A 0; I2cSet 0 0x40 0x0B 0;
               I2cSet 0 0x40 0x0C 0x58; I2cSet 0 0x40 0x0D 0x02]) /\
  exists r1 r2 r3 r4 on_low on_high off_low off_high,
    [I2cSet 0 0x40 0x0A 0; I2cSet 0 0x40 0x0B 0;
     I2cSet 0 0x40 0x0C 0x58; I2cSet 0 0x40 0x0D 0x02]
    = [] ++ [I2cSet (bus pwm0) (addr pwm0) r1 on_low;
             I2cSet (bus pwm0) (addr pwm0) r2 on_high;
             I2cSet (bus pwm0) (addr pwm0) r3 off_low;
             I2cSet (bus pwm0) (addr pwm0) r4 off_high] /\
    on_low = Z.land 0 0xFF /\ on_high = Z.shiftr 0 8 /\
    off_low = Z.land 600 0xFF /\ off_high = Z.shiftr 600 8 /\
    Z.lor (Z.shiftl on_high 8) on_low = 0 /\
    Z.lor (Z.shiftl off_high 8) off_low = 600 /\
    0 <= on_low <= 255 /\ 0 <= on_high <= 15 /\
    0 <= off_low <= 255 /\ 0 <= off_high <= 15.
Proof.
  split; [vm_compute; reflexivity | ].
  apply (split_ticks_roundtrip pwm0 1 0 600 (answering 0) []).
  - lia.
  - lia.
  - left. vm_compute. reflexivity.
Defined.

(** C8.  A returning [set_all_pwm(0, 150)] has issued exactly four register
    writes, to ALL_LED_ON_L (0xFA), ALL_LED_ON_H (0xFB), ALL_LED_OFF_L (0xFC)
    and ALL_LED_OFF_H (0xFD), in this order, with the values 0, 0, 150, 0,
    and nothing else. *)
Theorem set_all_pwm_0_150 self w tr tr' :
  set_all_pwm self 0 150 w tr = (Ok tt, tr') ->
  tr' = tr ++ [I2cSet (bus self) (addr self) 0xFA 0;
               I2cSet (bus self) (addr self) 0xFB 0;
               I2cSet (bus self) (addr self) 0xFC 150;
               I2cSet (bus self) (addr self) 0xFD 0].
Proof.
  intros H. apply set_all_pwm_ok in H. exact H.
Qed.

Lemma set_all_pwm_0_150_witness :
  set_all_pwm pwm0 0 150 (answering 0x11) [I2cDetect 0 0x40]
    = (Ok tt, [I2cDetect 0 0x40;
               I2cSet 0 0x40 0xFA 0; I2cSet 0 0x40 0xFB 0;
               I2cSet 0 0x40 0xFC 150; I2cSet 0 0x40 0xFD 0]) /\
  [I2cDetect 0 0x40;
   I2cSet 0 0x40 0xFA 0; I2cSet 0 0x40 0xFB 0;
   I2cSet 0 0x40 0xFC 150; I2cSet 0 0x40 0xFD 0]
  = [I2cDetect 0 0x40] ++ [I2cSet (bus pwm0) (addr pwm0) 0xFA 0;
                           I2cSet (bus pwm0) (addr pwm0) 0xFB 0;
                           I2cSet (bus pwm0) (addr pwm0) 0xFC 150;
                           I2cSet (bus pwm0) (addr pwm0) 0xFD 0].
Proof.
  split; [vm_compute; reflexivity | ].
  apply (set_all_pwm_0_150 pwm0 (answering 0x11) [I2cDetect 0 0x40]).
  vm_compute. reflexivity.
Defined.

(** Under a chip that acknowledges everything, [set_all_pwm] returns. *)
Lemma set_all_pwm_answering self on off m tr :
  set_all_pwm self on off (answering m) tr
  = (Ok tt,
     tr ++ [I2cSet (bus self) (addr self) ALL_LED_ON_L (Z.land on 0xFF);
            I2cSet (bus self) (addr self) ALL_LED_ON_H (Z.shiftr on 8);
            I2cSet (bus self) (addr self) ALL_LED_OFF_L (Z.land off 0xFF);
            I2cSet (bus self) (addr self) ALL_LED_OFF_H (Z.shiftr off 8)]).
Proof.
  unfold set_all_pwm.
  rewrite (bind_step _ _ _ _ _ _ (write_reg_answering _ _ _ _ _)).
  rewrite (bind_step _ _ _ _ _ _ (write_reg_answering _ _ _ _ _)).
  rewrite (bind_step _ _ _ _ _ _ (write_reg_answering _ _ _ _ _)).
  rewrite write_reg_answering.
  rewrite <- !app_assoc. reflexivity.
Qed.

(** ** C9: the pre-scale against the frequency *)

Lemma prescale_table : forallb prescale_step_ok (Zrange 24 1502) = true.
Proof. vm_compute. reflexivity. Qed.

Lemma Zrange_In (lo : Z) (n : nat) (x : Z) :
  lo <= x < lo + Z.of_nat n -> In x (Zrange lo n).
Proof.
  revert lo. induction n as [| n IH]; intros lo H.
  - lia.
  - cbn [Zrange]. destruct (Z.eq_dec lo x) as [E | NE].
    + left. exact E.
    + right. apply IH. lia.
Qed.

Lemma prescale_step (f : Z) :
  24 <= f < 1526 ->
  exists p p', prescale_of f = Ok p /\ prescale_of (f + 1) = Ok p' /\ p' <= p.
Proof.
  intros H.
  pose proof prescale_table as T. rewrite forallb_forall in T.
  specialize (T f (Zrange_In 24 1502 f ltac:(lia))).
  unfold prescale_step_ok in T.
  destruct (prescale_of f) as [p | ]; [ | discriminate T].
  destruct (prescale_of (f + 1)) as [p' | ]; [ | discriminate T].
  exists p, p'. repeat split. apply Z.leb_le. exact T.
Qed.

(** C9.  On the integer frequencies of [24,1526] the computed pre-scale is
    defined and does not increase with the frequency. *)
Theorem prescale_monotone (f1 f2 : Z) :
  24 <= f1 -> f1 <= f2 -> f2 <= 1526 ->
  exists p1 p2,
    prescale_of f1 = Ok p1 /\ prescale_of f2 = Ok p2 /\ p2 <= p1.
Proof.
  intros Hlo Hle Hhi.
  replace f2 with (f1 + Z.of_nat (Z.to_nat (f2 - f1))) in * by lia.
  induction (Z.to_nat (f2 - f1)) as [| n IH].
  - rewrite Z.add_0_r.
    destruct (Z.eq_dec f1 1526) as [-> | NE].
    + exists 3, 3. repeat split; [vm_compute; reflexivity .. | lia].
    + destruct (prescale_step f1 ltac:(lia)) as (p & _ & Hp & _).
      exists p, p. repeat split; try assumption. lia.
  - destruct IH as (p1 & p2 & H1 & H2 & Hmono); [lia .. | ].
    destruct (prescale_step (f1 + Z.of_nat n) ltac:(lia)) as (q & q' & Hq & Hq' & Hstep).
    rewrite H2 in Hq. injection Hq as <-.
    exists p1, q'. split; [exact H1 | ]. split; [ | lia].
    rewrite <- Hq'. f_equal. lia.
Qed.

Lemma prescale_monotone_witness :
  exists p1 p2,
    prescale_of 50 = Ok p1 /\ prescale_of 60 = Ok p2 /\ p2 <= p1.
Proof.
  apply (prescale_monotone 50 60); lia.
Defined.

(** On that range the binary64 computation agrees with the formula over
    exact arithmetic. *)
Lemma prescale_of_exact (f : Z) :
  24 <= f <= 1526 -> prescale_of f = Ok (prescale_exact f).
Proof.
  intros H.
  assert (T : forallb (fun f => match prescale_of f with
                                | Ok p => p =? prescale_exact f
                                | Raise _ => false
                                end) (Zrange 24 1503) = true)
    by (vm_compute; reflexivity).
  rewrite forallb_forall in T.
  specialize (T f (Zrange_In 24 1503 f ltac:(lia))).
  destruct (prescale_of f) as [p | ]; [ | discriminate T].
  apply Z.eqb_eq in T. rewrite T. reflexivity.
Qed.

(** ** C3: [set_pwm] on arguments out of range *)

Lemma bind_fail {A B : Type} (m : io A) (f : A -> io B) w tr e tr1 :
  m w tr = (Raise e, tr1) -> bind m f w tr = (Raise e, tr1).
Proof. unfold bind. intros ->. reflexivity. Qed.

(** Every [write_reg] starts its i2cset; it returns, or fails to start the
    tool, or fails to decode what the tool printed. *)
Lemma write_reg_cases self reg regval w tr :
  exists r,
    write_reg self reg regval w tr
      = (r, tr ++ [I2cSet (bus self) (addr self) reg regval]) /\
    (r = Ok tt \/ r = Raise OSError \/ r = Raise UnicodeDecodeError).
Proof.
  unfold write_reg, bind, subprocess_run.
  destruct (w (tr ++ [I2cSet (bus self) (addr self) reg regval]))
    as [| rc [| text]]; cbn [decode raise ret]; eexists; split;
    try reflexivity; auto.
Qed.

Lemma write_reg_completes self reg regval w tr :
  always_completes w ->
  write_reg self reg regval w tr
  = (Ok tt, tr ++ [I2cSet (bus self) (addr self) reg regval]).
Proof.
  intros Hw. unfold write_reg, bind, subprocess_run.
  destruct (Hw (tr ++ [I2cSet (bus self) (addr self) reg regval]))
    as (rc & text & ->).
  reflexivity.
Qed.

Lemma set_pwm_completes self channel on off w tr :
  always_completes w ->
  set_pwm self channel on off w tr
  = (Ok tt,
     tr ++ [I2cSet (bus self) (addr self) (LED0_ON_L + 4 * channel) (Z.land on 0xFF);
            I2cSet (bus self) (addr self) (LED0_ON_H + 4 * channel) (Z.shiftr on 8);
            I2cSet (bus self) (addr self) (LED0_OFF_L + 4 * channel) (Z.land off 0xFF);
            I2cSet (bus self) (addr self) (LED0_OFF_H + 4 * channel) (Z.shiftr off 8)]).
Proof.
  intros Hw. unfold set_pwm.
  rewrite (bind_step _ _ _ _ _ _ (write_reg_completes _ _ _ _ _ Hw)).
  rewrite (bind_step _ _ _ _ _ _ (write_reg_completes _ _ _ _ _ Hw)).
  rewrite (bind_step _ _ _ _ _ _ (write_reg_completes _ _ _ _ _ Hw)).
  rewrite (write_reg_completes _ _ _ _ _ Hw).
  rewrite <- !app_assoc. reflexivity.
Qed.

(** Case analysis on the next [write_reg] of a sequence. *)
Ltac next_write :=
  match goal with
  | |- context [bind (write_reg ?s ?r ?v) ?f ?w ?t] =>
      let x := fresh "r" in let E := fresh "E" in let C := fresh "C" in
      destruct (write_reg_cases s r v w t) as (x & E & [C | [C | C]]);
      subst x;
      [ rewrite (bind_step _ _ _ _ _ _ E)
      | rewrite (bind_fail _ _ _ _ _ _ E)
      | rewrite (bind_fail _ _ _ _ _ _ E) ]
  | |- context [write_reg ?s ?r ?v ?w ?t] =>
      let x := fresh "r" in let E := fresh "E" in let C := fresh "C" in
      destruct (write_reg_cases s r v w t) as (x & E & [C | [C | C]]);
      subst x; rewrite E
  end.

(** C3 (as amended).  [set_pwm] validates nothing.  For all integers
    [channel], [on] and [off], in range or not, its first action is the
    register write of [on & 0xFF] to LED0_ON_L + 4*channel; it raises only
    what the process plumbing raises (never a range error); and when every
    process completes it issues all four writes and returns. *)
Theorem set_pwm_unchecked self channel on off w tr :
  exists r rest,
    set_pwm self channel on off w tr
      = (r, tr ++ I2cSet (bus self) (addr self)
                    (LED0_ON_L + 4 * channel) (Z.land on 0xFF) :: rest) /\
    (r = Ok tt \/ r = Raise OSError \/ r = Raise UnicodeDecodeError) /\
    (always_completes w ->
     r = Ok tt /\
     rest = [I2cSet (bus self) (addr self) (LED0_ON_H + 4 * channel) (Z.shiftr on 8);
             I2cSet (bus self) (addr self) (LED0_OFF_L + 4 * channel) (Z.land off 0xFF);
             I2cSet (bus self) (addr self) (LED0_OFF_H + 4 * channel) (Z.shiftr off 8)]).
Proof.
  destruct (set_pwm self channel on off w tr) as [r tr'] eqn:Run.
  assert (Hfull : always_completes w ->
     r = Ok tt /\
     tr' = tr ++ [I2cSet (bus self) (addr self) (LED0_ON_L + 4 * channel) (Z.land on 0xFF);
            I2cSet (bus self) (addr self) (LED0_ON_H + 4 * channel) (Z.shiftr on 8);
            I2cSet (bus self) (addr self) (LED0_OFF_L + 4 * channel) (Z.land off 0xFF);
            I2cSet (bus self) (addr self) (LED0_OFF_H + 4 * channel) (Z.shiftr off 8)]).
  { intros Hw. rewrite (set_pwm_completes _ _ _ _ _ _ Hw) in Run.
    injection Run as <- <-. split; reflexivity. }
  assert (Hshape : exists rest,
     tr' = tr ++ I2cSet (bus self) (addr self)
                   (LED0_ON_L + 4 * channel) (Z.land on 0xFF) :: rest /\
     (r = Ok tt \/ r = Raise OSError \/ r = Raise UnicodeDecodeError)).
  { revert Run. unfold set_pwm.
    repeat next_write; intros Run; injection Run as <- <-;
      rewrite <- ?app_assoc; cbn [app]; eexists; split; try reflexivity; auto. }
  destruct Hshape as (rest & -> & Hr).
  exists r, rest. split; [reflexivity | ]. split; [exact Hr | ].
  intros Hw. destruct (Hfull Hw) as [-> E]. split; [reflexivity | ].
  apply app_inv_head in E. injection E as ->. reflexivity.
Qed.

(** [set_pwm(16, 0, 0)] and [set_pwm(0, 4096, 0)] raise nothing and issue
    their four writes: to the registers 0x46 to 0x49, past the last channel,
    and with the high byte 0x10 for the tick count 4096. *)
Lemma set_pwm_out_of_range_writes :
  set_pwm pwm0 16 0 0 (answering 0x11) []
    = (Ok tt, [I2cSet 0 0x40 0x46 0; I2cSet 0 0x40 0x47 0;
               I2cSet 0 0x40 0x48 0; I2cSet 0 0x40 0x49 0]) /\
  set_pwm pwm0 0 4096 0 (answering 0x11) []
    = (Ok tt, [I2cSet 0 0x40 0x06 0; I2cSet 0 0x40 0x07 0x10;
               I2cSet 0 0x40 0x08 0; I2cSet 0 0x40 0x09 0]) /\
  set_pwm pwm0 0 0 (-1) (answering 0x11) []
    = (Ok tt, [I2cSet 0 0x40 0x06 0; I2cSet 0 0x40 0x07 0;
               I2cSet 0 0x40 0x08 0xFF; I2cSet 0 0x40 0x09 (-1)]).
Proof. repeat split; vm_compute; reflexivity. Qed.

(** ** C4: failures during construction *)

Create HintDb blind discriminated.
Create HintDb raises discriminated.

Lemma blind_ret {A : Type} (a : A) : status_blind (ret a).
Proof. intros rc w tr. reflexivity. Qed.

Lemma blind_raise {A : Type} (e : exn) : status_blind (@raise A e).
Proof. intros rc w tr. reflexivity. Qed.

Lemma blind_sleep secs : status_blind (time_sleep secs).
Proof. intros rc w tr. reflexivity. Qed.

Lemma blind_run cmd : status_blind (subprocess_run cmd).
Proof.
  intros rc w tr. unfold subprocess_run, with_status.
  destruct (w (tr ++ [cmd])); reflexivity.
Qed.

Lemma blind_bind {A B : Type} (m : io A) (f : A -> io B) :
  status_blind m -> (forall a, status_blind (f a)) -> status_blind (bind m f).
Proof.
  intros Hm Hf rc w tr. unfold bind. rewrite Hm.
  destruct (m w tr) as [[a | e] tr1]; [apply Hf | reflexivity].
Qed.

Lemma blind_decode out : status_blind (decode out).
Proof. destruct out; [apply blind_raise | apply blind_ret]. Qed.

Lemma blind_int16 text : status_blind (int16 text).
Proof. destruct text; [apply blind_ret | apply blind_raise]. Qed.

#[local] Hint Resolve blind_ret blind_raise blind_sleep blind_run blind_bind
  blind_decode blind_int16 : blind.

Lemma blind_write_reg self reg regval : status_blind (write_reg self reg regval).
Proof. unfold write_reg. auto 10 with blind. Qed.

Lemma blind_read_reg self reg : status_blind (read_reg self reg).
Proof. unfold read_reg. auto 10 with blind. Qed.

Lemma blind_detect self : status_blind (detect self).
Proof. unfold detect. auto 10 with blind. Qed.

#[local] Hint Resolve blind_write_reg blind_read_reg blind_detect : blind.

Lemma blind_init b a : status_blind (PCA9685_init b a).
Proof.
  unfold PCA9685_init, MCP2221A_init, set_all_pwm.
  repeat (apply blind_bind; [auto with blind | intros ?]).
  apply blind_ret.
Qed.

Lemma raises_ret {A : Type} (P : exn -> Prop) (a : A) : raises_only P (ret a).
Proof. intros w tr e tr' H. discriminate H. Qed.

Lemma raises_sleep (P : exn -> Prop) secs : raises_only P (time_sleep secs).
Proof. intros w tr e tr' H. discriminate H. Qed.

Lemma raises_bind {A B : Type} (P : exn -> Prop) (m : io A) (f : A -> io B) :
  raises_only P m -> (forall a, raises_only P (f a)) -> raises_only P (bind m f).
Proof.
  intros Hm Hf w tr e tr' H.
  apply bind_raise in H as [H | (a & tr1 & _ & H)].
  - exact (Hm _ _ _ _ H).
  - exact (Hf _ _ _ _ _ H).
Qed.

Lemma raises_run cmd : raises_only plumbing (subprocess_run cmd).
Proof.
  intros w tr e tr'. unfold subprocess_run.
  destruct (w (tr ++ [cmd])); intros H; [ | discriminate H].
  injection H as <- _. left. reflexivity.
Qed.

Lemma raises_decode out : raises_only plumbing (decode out).
Proof.
  intros w tr e tr'. destruct out; intros H; [ | discriminate H].
  injection H as <- _. right. left. reflexivity.
Qed.

Lemma raises_int16 text : raises_only plumbing (int16 text).
Proof.
  intros w tr e tr'. destruct text; intros H; [discriminate H | ].
  injection H as <- _. right. right. reflexivity.
Qed.

#[local] Hint Resolve raises_ret raises_sleep raises_bind raises_run
  raises_decode raises_int16 : raises.

Lemma raises_write_reg self reg regval :
  raises_only plumbing (write_reg self reg regval).
Proof. unfold write_reg. auto 10 with raises. Qed.

Lemma raises_read_reg self reg : raises_only plumbing (read_reg self reg).
Proof. unfold read_reg. auto 10 with raises. Qed.

Lemma raises_detect self : raises_only plumbing (detect self).
Proof. unfold detect. auto 10 with raises. Qed.

#[local] Hint Resolve raises_write_reg raises_read_reg raises_detect : raises.

Lemma raises_init b a : raises_only plumbing (PCA9685_init b a).
Proof.
  unfold PCA9685_init, MCP2221A_init, set_all_pwm.
  repeat (apply raises_bind; [auto with raises | intros ?]).
  apply raises_ret.
Qed.


(** What each transaction does, read off the world's answer to it. *)
Lemma write_reg_world self reg regval w tr :
  write_reg self reg regval w tr
  = (match w (tr ++ [I2cSet (bus self) (addr self) reg regval]) with
     | NotStarted => Raise OSError
     | Completed _ Undecodable => Raise UnicodeDecodeError
     | Completed _ (Text _) => Ok tt
     end,
     tr ++ [I2cSet (bus self) (addr self) reg regval]).
Proof.
  unfold write_reg, bind, subprocess_run.
  destruct (w (tr ++ [I2cSet (bus self) (addr self) reg regval]))
    as [| rc [| text]]; reflexivity.
Qed.

Lemma read_reg_world self reg w tr :
  read_reg self reg w tr
  = (match w (tr ++ [I2cGet (bus self) (addr self) reg]) with
     | NotStarted => Raise OSError
     | Completed _ Undecodable => Raise UnicodeDecodeError
     | Completed _ (Text None) => Raise ValueError
     | Completed _ (Text (Some m)) => Ok m
     end,
     tr ++ [I2cGet (bus self) (addr self) reg]).
Proof.
  unfold read_reg, bind, subprocess_run.
  destruct (w (tr ++ [I2cGet (bus self) (addr self) reg]))
    as [| rc [| [m |]]]; reflexivity.
Qed.

Lemma detect_world self w tr :
  detect self w tr
  = (match w (tr ++ [I2cDetect (bus self) (addr self)]) with
     | NotStarted => Raise OSError
     | Completed _ Undecodable => Raise UnicodeDecodeError
     | Completed _ (Text _) => Ok tt
     end,
     tr ++ [I2cDetect (bus self) (addr self)]).
Proof.
  unfold detect, bind, subprocess_run.
  destruct (w (tr ++ [I2cDetect (bus self) (addr self)]))
    as [| rc [| text]]; reflexivity.
Qed.

(** Run the next transaction of a sequence, by cases on the world's answer:
    the goal splits into the case where the sequence goes on and the cases
    where it ends there with an exception. *)
Ltac next_transaction :=
  match goal with
  | |- context [bind (write_reg ?s ?r ?v) ?f ?w ?t] =>
      let X := fresh "X" in let E := fresh "E" in
      pose proof (write_reg_world s r v w t) as X;
      destruct (w (t ++ [I2cSet (bus s) (addr s) r v])) as [| ? [| ?]] eqn:E;
      [ rewrite (bind_fail _ _ _ _ _ _ X)
      | rewrite (bind_fail _ _ _ _ _ _ X)
      | rewrite (bind_step _ _ _ _ _ _ X) ]; clear X
  | |- context [bind (read_reg ?s ?r) ?f ?w ?t] =>
      let X := fresh "X" in let E := fresh "E" in
      pose proof (read_reg_world s r w t) as X;
      destruct (w (t ++ [I2cGet (bus s) (addr s) r])) as [| ? [| [? |]]] eqn:E;
      [ rewrite (bind_fail _ _ _ _ _ _ X)
      | rewrite (bind_fail _ _ _ _ _ _ X)
      | rewrite (bind_step _ _ _ _ _ _ X)
      | rewrite (bind_fail _ _ _ _ _ _ X) ]; clear X
  | |- context [bind (detect ?s) ?f ?w ?t] =>
      let X := fresh "X" in let E := fresh "E" in
      pose proof (detect_world s w t) as X;
      destruct (w (t ++ [I2cDetect (bus s) (addr s)])) as [| ? [| ?]] eqn:E;
      [ rewrite (bind_fail _ _ _ _ _ _ X)
      | rewrite (bind_fail _ _ _ _ _ _ X)
      | rewrite (bind_step _ _ _ _ _ _ X) ]; clear X
  | |- context [bind (time_sleep ?s) ?f ?w ?t] =>
      rewrite (bind_step (time_sleep s) f w t tt (t ++ [Sleep s]) eq_refl)
  | |- context [bind (ret ?a) ?f ?w ?t] =>
      rewrite (bind_step (ret a) f w t a t eq_refl)
  end.










(** ** C5: PRESCALE is written only under SLEEP *)

Create HintDb guard discriminated.

Lemma prescale_guarded_app a t1 t2 :
  prescale_guarded a (t1 ++ t2)
  = prescale_guarded a t1 && prescale_guarded (asleep_after a t1) t2.
Proof.
  revert a. induction t1 as [| e t1 IH]; intros a; [reflexivity | ].
  destruct e; cbn [app prescale_guarded asleep_after]; try apply IH.
  destruct (reg =? MODE1); [apply IH | ].
  destruct (reg =? PRESCALE); [ | apply IH].
  rewrite IH. apply andb_assoc.
Qed.

Lemma guard_ret {A : Type} (a : A) : extends_guarded (ret a).
Proof.
  intros w tr. exists []. split; [symmetry; apply app_nil_r | reflexivity].
Qed.

Lemma guard_lift {A : Type} (r : result A) : extends_guarded (lift r).
Proof.
  intros w tr. exists []. split; [symmetry; apply app_nil_r | reflexivity].
Qed.

Lemma guard_bind {A B : Type} (m : io A) (f : A -> io B) :
  extends_guarded m -> (forall a, extends_guarded (f a)) ->
  extends_guarded (bind m f).
Proof.
  intros Hm Hf w tr. unfold bind.
  destruct (Hm w tr) as (d1 & E1 & G1).
  destruct (m w tr) as [[a | e] tr1]; cbn [snd] in E1; subst tr1.
  - destruct (Hf a w (tr ++ d1)) as (d2 & E2 & G2).
    exists (d1 ++ d2). split.
    + rewrite E2. symmetry. apply app_assoc.
    + intros s. rewrite prescale_guarded_app, G1, G2. reflexivity.
  - exists d1. split; [reflexivity | exact G1].
Qed.

Lemma guard_sleep secs : extends_guarded (time_sleep secs).
Proof. intros w tr. exists [Sleep secs]. split; reflexivity. Qed.

Lemma guard_read_reg self reg : extends_guarded (read_reg self reg).
Proof.
  intros w tr. exists [I2cGet (bus self) (addr self) reg].
  split; [ | reflexivity].
  unfold read_reg, bind, subprocess_run.
  destruct (w (tr ++ [I2cGet (bus self) (addr self) reg])) as [| rc [| [n |]]];
    reflexivity.
Qed.

Lemma guard_detect self : extends_guarded (detect self).
Proof.
  intros w tr. exists [I2cDetect (bus self) (addr self)].
  split; [ | reflexivity].
  unfold detect, bind, subprocess_run.
  destruct (w (tr ++ [I2cDetect (bus self) (addr self)])) as [| rc [| text]];
    reflexivity.
Qed.

Lemma guard_write_raw self raw : extends_guarded (write_raw self raw).
Proof.
  intros w tr. exists [I2cSetRaw (bus self) (addr self) raw].
  split; [ | reflexivity].
  unfold write_raw, bind, subprocess_run.
  destruct (w (tr ++ [I2cSetRaw (bus self) (addr self) raw])) as [| rc [| text]];
    reflexivity.
Qed.

(** A register write is harmless unless it goes to PRESCALE. *)
Lemma guard_write_reg self reg regval :
  reg <> PRESCALE -> extends_guarded (write_reg self reg regval).
Proof.
  intros Hreg w tr. exists [I2cSet (bus self) (addr self) reg regval]. split.
  - destruct (write_reg_cases self reg regval w tr) as (r & -> & _). reflexivity.
  - intros s. cbn [prescale_guarded].
    destruct (reg =? MODE1); [reflexivity | ].
    destruct (Z.eqb_spec reg PRESCALE) as [E | _]; [contradiction | reflexivity].
Qed.

(** The pattern of [set_pwm_freq]: put the chip to sleep, then write
    PRESCALE, then go on. *)
Lemma guard_sleep_then_prescale self mode prescale (k : io unit) :
  Z.testbit mode 4 = true ->
  extends_guarded k ->
  extends_guarded (write_reg self MODE1 mode ;;
                   write_reg self PRESCALE prescale ;; k).
Proof.
  intros Hbit Hk w tr.
  destruct (write_reg_cases self MODE1 mode w tr) as (r1 & E1 & C1).
  destruct r1 as [[] | e1].
  - rewrite (bind_step _ _ _ _ _ _ E1).
    destruct (write_reg_cases self PRESCALE prescale w
                (tr ++ [I2cSet (bus self) (addr self) MODE1 mode]))
      as (r2 & E2 & C2).
    destruct r2 as [[] | e2].
    + rewrite (bind_step _ _ _ _ _ _ E2).
      destruct (Hk w ((tr ++ [I2cSet (bus self) (addr self) MODE1 mode]) ++
                      [I2cSet (bus self) (addr self) PRESCALE prescale]))
        as (d & -> & G).
      exists (I2cSet (bus self) (addr self) MODE1 mode ::
              I2cSet (bus self) (addr self) PRESCALE prescale :: d).
      split; [rewrite <- !app_assoc; reflexivity | ].
      intros s. cbn [prescale_guarded].
      change (MODE1 =? MODE1) with true. change (PRESCALE =? MODE1) with false.
      change (PRESCALE =? PRESCALE) with true. cbv iota.
      rewrite Hbit. apply G.
    + rewrite (bind_fail _ _ _ _ _ _ E2).
      exists [I2cSet (bus self) (addr self) MODE1 mode;
              I2cSet (bus self) (addr self) PRESCALE prescale].
      split; [rewrite <- !app_assoc; reflexivity | ].
      intros s. cbn [prescale_guarded].
      change (MODE1 =? MODE1) with true. change (PRESCALE =? MODE1) with false.
      change (PRESCALE =? PRESCALE) with true. cbv iota.
      rewrite Hbit. reflexivity.
  - rewrite (bind_fail _ _ _ _ _ _ E1).
    exists [I2cSet (bus self) (addr self) MODE1 mode].
    split; reflexivity.
Qed.

#[local] Hint Resolve guard_ret guard_lift guard_bind guard_sleep
  guard_read_reg guard_detect guard_write_raw : guard.
#[local] Hint Extern 1 (extends_guarded (write_reg _ _ _)) =>
  apply guard_write_reg; unfold PRESCALE, MODE1, MODE2, ALL_LED_ON_L,
    ALL_LED_ON_H, ALL_LED_OFF_L, ALL_LED_OFF_H, LED0_ON_L, LED0_ON_H,
    LED0_OFF_L, LED0_OFF_H in *; lia : guard.

Lemma guard_set_pwm_freq self freq_hz : extends_guarded (set_pwm_freq self freq_hz).
Proof.
  unfold set_pwm_freq.
  apply guard_bind; [apply guard_lift | intros prescale].
  apply guard_bind; [apply guard_read_reg | intros oldmode].
  apply guard_sleep_then_prescale.
  - rewrite Z.lor_spec. change (Z.testbit SLEEP 4) with true. apply orb_true_r.
  - auto 10 with guard.
Qed.

Lemma guard_set_all_pwm self on off : extends_guarded (set_all_pwm self on off).
Proof. unfold set_all_pwm. auto 10 with guard. Qed.

Lemma guard_set_pwm self channel on off :
  channel <> 62 -> extends_guarded (set_pwm self channel on off).
Proof. intros H. unfold set_pwm. auto 10 with guard. Qed.

Lemma guard_init b a : extends_guarded (PCA9685_init b a).
Proof.
  unfold PCA9685_init, MCP2221A_init.
  repeat (apply guard_bind;
          [auto using guard_set_all_pwm with guard | intros ?]).
  apply guard_ret.
Qed.

Lemma guard_do_call self c :
  avoids_prescale c = true -> extends_guarded (do_call self c).
Proof.
  destruct c as [f | channel on off | on off | | reg]; cbn [avoids_prescale do_call];
    intros H.
  - apply guard_set_pwm_freq.
  - apply guard_set_pwm. intros ->. discriminate H.
  - apply guard_set_all_pwm.
  - apply guard_write_raw.
  - auto with guard.
Qed.

Lemma guard_run_calls self cs :
  forallb avoids_prescale cs = true -> extends_guarded (run_calls self cs).
Proof.
  induction cs as [| c cs IH]; cbn [forallb run_calls]; intros H.
  - apply guard_ret.
  - apply andb_true_iff in H as [Hc Hcs].
    apply guard_bind; [apply guard_do_call; exact Hc | intros _; exact (IH Hcs)].
Qed.

(** C5 (as amended).  Take any session: a construction followed by any
    sequence of [set_pwm_freq], [set_all_pwm], [software_reset], [read_reg]
    and [set_pwm] calls whose channel is not 62, against any world, run to
    its end or to its first exception.  In its trace every write to PRESCALE
    finds the SLEEP bit set by the latest write to MODE1. *)
Theorem prescale_only_asleep b a cs w :
  forallb avoids_prescale cs = true ->
  prescale_guarded false (snd (session b a cs w [])) = true.
Proof.
  intros H.
  assert (G : extends_guarded (session b a cs)).
  { unfold session. apply guard_bind; [apply guard_init | ].
    intros self. apply guard_run_calls. exact H. }
  destruct (G w []) as (d & -> & Gd). apply Gd.
Qed.

Lemma prescale_only_asleep_witness :
  forallb avoids_prescale
    [SetPwmFreq 60; SetAllPwm 0 150; SetPwm 15 0 600; SoftwareReset] = true /\
  prescale_writes
    (snd (session 0 0x40
            [SetPwmFreq 60; SetAllPwm 0 150; SetPwm 15 0 600; SoftwareReset]
            (answering 0x01) [])) = [101] /\
  prescale_guarded false
    (snd (session 0 0x40
            [SetPwmFreq 60; SetAllPwm 0 150; SetPwm 15 0 600; SoftwareReset]
            (answering 0x01) [])) = true.
Proof.
  split; [reflexivity | ]. split; [vm_compute; reflexivity | ].
  apply (prescale_only_asleep 0 0x40
           [SetPwmFreq 60; SetAllPwm 0 150; SetPwm 15 0 600; SoftwareReset]
           (answering 0x01)).
  reflexivity.
Defined.

(** [set_pwm(62, 5, 0)] on a freshly constructed, awake controller writes 5
    to register 0xFE, PRESCALE, while the latest MODE1 write (0x01) has the
    SLEEP bit clear. *)
Lemma set_pwm_62_writes_prescale_awake :
  session 0 0x40 [SetPwm 62 5 0] (answering 0x11) []
    = (Ok tt,
       [I2cDetect 0 0x40;
        I2cSet 0 0x40 0xFA 0; I2cSet 0 0x40 0xFB 0;
        I2cSet 0 0x40 0xFC 0; I2cSet 0 0x40 0xFD 0;
        I2cSet 0 0x40 0x01 0x04; I2cSet 0 0x40 0x00 0x01;
        Sleep 0.005; I2cGet 0 0x40 0x00;
        I2cSet 0 0x40 0x00 0x01; Sleep 0.005;
        I2cSet 0 0x40 0xFE 5; I2cSet 0 0x40 0xFF 0;
        I2cSet 0 0x40 0x100 0; I2cSet 0 0x40 0x101 0]) /\
  prescale_guarded false
    (snd (session 0 0x40 [SetPwm 62 5 0] (answering 0x11) [])) = false.
Proof. split; vm_compute; reflexivity. Qed.

(** * Further properties of the driver *)

(** ** Channel arithmetic of [set_pwm] *)

(** Channel 61 of [set_pwm] is the broadcast: LED0_ON_L + 4 * 61 is
    ALL_LED_ON_L, and so on for the other three registers, so that
    [set_pwm(61, on, off)] and [set_all_pwm(on, off)] are the same
    computation. *)
Theorem set_pwm_61_is_set_all_pwm self on off w tr :
  set_pwm self 61 on off w tr = set_all_pwm self on off w tr.
Proof.
  unfold set_pwm, set_all_pwm.
  change (LED0_ON_L + 4 * 61) with ALL_LED_ON_L.
  change (LED0_ON_H + 4 * 61) with ALL_LED_ON_H.
  change (LED0_OFF_L + 4 * 61) with ALL_LED_OFF_L.
  change (LED0_OFF_H + 4 * 61) with ALL_LED_OFF_H.
  reflexivity.
Qed.

Lemma written_regs_app t1 t2 :
  written_regs (t1 ++ t2) = written_regs t1 ++ written_regs t2.
Proof.
  induction t1 as [| e t1 IH]; [reflexivity | ].
  destruct e; cbn [app written_regs]; try exact IH.
  f_equal. exact IH.
Qed.

(** Whatever the world does, [set_pwm] writes to the four registers of its
    channel only. *)
Lemma set_pwm_regs self channel on off w tr r :
  In r (written_regs (snd (set_pwm self channel on off w tr))) ->
  In r (written_regs tr) \/
  LED0_ON_L + 4 * channel <= r <= LED0_OFF_H + 4 * channel.
Proof.
  unfold set_pwm.
  repeat next_write; cbn [snd]; rewrite !written_regs_app; cbn [written_regs];
    rewrite !in_app_iff; cbn [In]; unfold LED0_ON_L, LED0_ON_H, LED0_OFF_L,
      LED0_OFF_H; intuition lia.
Qed.

(** Two [set_pwm] calls that write to a common register are calls on the
    same channel: the register blocks of different channels are disjoint,
    for all integer channel numbers. *)
Theorem set_pwm_channels_disjoint
    self1 self2 c1 c2 on1 off1 on2 off2 w1 w2 r :
  In r (written_regs (snd (set_pwm self1 c1 on1 off1 w1 []))) ->
  In r (written_regs (snd (set_pwm self2 c2 on2 off2 w2 []))) ->
  c1 = c2.
Proof.
  intros H1 H2.
  apply set_pwm_regs in H1 as [[] | H1].
  apply set_pwm_regs in H2 as [[] | H2].
  unfold LED0_ON_L, LED0_OFF_H in *. lia.
Qed.

Lemma set_pwm_channels_disjoint_witness :
  In 0x0A (written_regs (snd (set_pwm pwm0 1 0 150 (answering 0) []))) /\
  In 0x0A (written_regs (snd (set_pwm pwm0 1 0 600 (answering 1) []))) /\
  1 = 1.
Proof.
  split; [vm_compute; tauto | ]. split; [vm_compute; tauto | ].
  apply (set_pwm_channels_disjoint pwm0 pwm0 1 1 0 150 0 600
           (answering 0) (answering 1) 0x0A); vm_compute; tauto.
Defined.

(** With a channel in [0,15], [set_pwm] stays inside the LED0..LED15 block
    0x06..0x45: it never writes MODE1, MODE2, a sub-address register, an
    ALL_LED register or PRESCALE, whatever the world does. *)
Theorem set_pwm_in_range_block self channel on off w r :
  0 <= channel <= 15 ->
  In r (written_regs (snd (set_pwm self channel on off w []))) ->
  0x06 <= r <= 0x45 /\
  r <> MODE1 /\ r <> MODE2 /\ r <> SUBADR1 /\ r <> SUBADR2 /\ r <> SUBADR3 /\
  r <> ALL_LED_ON_L /\ r <> ALL_LED_ON_H /\ r <> ALL_LED_OFF_L /\
  r <> ALL_LED_OFF_H /\ r <> PRESCALE.
Proof.
  intros Hc H. apply set_pwm_regs in H as [[] | H].
  unfold LED0_ON_L, LED0_OFF_H, MODE1, MODE2, SUBADR1, SUBADR2, SUBADR3,
    ALL_LED_ON_L, ALL_LED_ON_H, ALL_LED_OFF_L, ALL_LED_OFF_H, PRESCALE in *.
  lia.
Qed.

Lemma set_pwm_in_range_block_witness :
  In 0x45 (written_regs (snd (set_pwm pwm0 15 0 600 (answering 0) []))) /\
  0x06 <= 0x45 <= 0x45 /\
  0x45 <> MODE1 /\ 0x45 <> MODE2 /\ 0x45 <> SUBADR1 /\ 0x45 <> SUBADR2 /\
  0x45 <> SUBADR3 /\
  0x45 <> ALL_LED_ON_L /\ 0x45 <> ALL_LED_ON_H /\ 0x45 <> ALL_LED_OFF_L /\
  0x45 <> ALL_LED_OFF_H /\ 0x45 <> PRESCALE.
Proof.
  split; [vm_compute; tauto | ].
  apply (set_pwm_in_range_block pwm0 15 0 600 (answering 0) 0x45).
  - lia.
  - vm_compute. tauto.
Defined.

(** ** The arithmetic of [set_pwm_freq] *)

Lemma raises_lift_ok {A : Type} (P : exn -> Prop) (a : A) :
  raises_only P (lift (Ok a)).
Proof. intros w tr e tr' H. discriminate H. Qed.

(** A [ZeroDivisionError] or [OverflowError] out of [set_pwm_freq] comes from
    the pre-scale arithmetic, before the first transaction: the trace is left
    as it was.  The frequency 0 is such a case. *)
Theorem set_pwm_freq_arithmetic_first self w tr :
  set_pwm_freq self 0 w tr = (Raise ZeroDivisionError, tr) /\
  forall freq_hz e tr',
    set_pwm_freq self freq_hz w tr = (Raise e, tr') ->
    e = ZeroDivisionError \/ e = OverflowError ->
    prescale_of freq_hz = Raise e /\ tr' = tr.
Proof.
  split; [reflexivity | ].
  intros f e tr' H He. unfold set_pwm_freq in H.
  destruct (prescale_of f) as [p | e0] eqn:Hp.
  - exfalso.
    assert (R : raises_only plumbing
                  (oldmode <- read_reg self MODE1 ;;
                   write_reg self MODE1
                     (Z.lor (Z.land oldmode (Z.lnot RESTART)) SLEEP) ;;
                   write_reg self PRESCALE p ;;
                   write_reg self MODE1 oldmode ;;
                   time_sleep 0.005 ;;
                   write_reg self MODE1 (Z.lor oldmode RESTART))).
    { repeat (apply raises_bind; [auto with raises | intros ?]).
      auto with raises. }
    rewrite (bind_step _ _ _ _ p tr eq_refl) in H.
    destruct (R w tr e tr' H) as [-> | [-> | ->]];
      destruct He as [He | He]; discriminate He.
  - unfold bind, lift in H. injection H as <- <-. split; reflexivity.
Qed.

Lemma prescale_range (f : Z) :
  24 <= f <= 1526 ->
  exists p, prescale_of f = Ok p /\ 3 <= p <= 253.
Proof.
  intros H.
  assert (T : forallb (fun f => match prescale_of f with
                                | Ok p => (3 <=? p) && (p <=? 253)
                                | Raise _ => false
                                end) (Zrange 24 1503) = true)
    by (vm_compute; reflexivity).
  rewrite forallb_forall in T.
  specialize (T f (Zrange_In 24 1503 f ltac:(lia))).
  destruct (prescale_of f) as [p | ]; [ | discriminate T].
  apply andb_true_iff in T as [T1 T2].
  apply Z.leb_le in T1. apply Z.leb_le in T2.
  exists p. split; [reflexivity | lia].
Qed.

(** On the integer frequencies of [24,1526] the pre-scale is defined and is
    between 3 and 253, so that it fits the 8-bit PRESCALE register; both
    bounds are reached, at 1526 Hz and at 24 Hz. *)
Theorem prescale_fits_register (f : Z) :
  24 <= f <= 1526 ->
  (exists p, prescale_of f = Ok p /\ 3 <= p <= 253) /\
  prescale_of 24 = Ok 253 /\ prescale_of 1526 = Ok 3.
Proof.
  intros H. split; [exact (prescale_range f H) | ].
  split; vm_compute; reflexivity.
Qed.

Lemma prescale_fits_register_witness :
  (exists p, prescale_of 100 = Ok p /\ 3 <= p <= 253) /\
  prescale_of 24 = Ok 253 /\ prescale_of 1526 = Ok 3.
Proof. apply (prescale_fits_register 100). lia. Defined.

Lemma prescale_of_exact_witness : prescale_of 24 = Ok (prescale_exact 24).
Proof. apply (prescale_of_exact 24). lia. Defined.

(** ** The MODE1 protocol of [set_pwm_freq] *)

Lemma sleep_mode_bits (oldmode : Z) :
  Z.testbit (Z.lor (Z.land oldmode (Z.lnot RESTART)) SLEEP) 4 = true /\
  Z.testbit (Z.lor (Z.land oldmode (Z.lnot RESTART)) SLEEP) 7 = false /\
  forall i, i <> 4 -> i <> 7 ->
    Z.testbit (Z.lor (Z.land oldmode (Z.lnot RESTART)) SLEEP) i
    = Z.testbit oldmode i.
Proof.
  repeat split.
  - rewrite Z.lor_spec. change (Z.testbit SLEEP 4) with true. apply orb_true_r.
  - rewrite Z.lor_spec, Z.land_spec, Z.lnot_spec by lia.
    change (Z.testbit SLEEP 7) with false. change (Z.testbit RESTART 7) with true.
    cbn [negb]. rewrite andb_false_r. reflexivity.
  - intros i H4 H7. destruct (Z.ltb_spec i 0) as [Hneg | Hpos].
    + rewrite !Z.testbit_neg_r by exact Hneg. reflexivity.
    + rewrite Z.lor_spec, Z.land_spec, Z.lnot_spec by exact Hpos.
      change SLEEP with (2 ^ 4). change RESTART with (2 ^ 7).
      rewrite !Z.pow2_bits_eqb by lia.
      destruct (Z.eqb_spec 4 i) as [E | _]; [lia | ].
      destruct (Z.eqb_spec 7 i) as [E | _]; [lia | ].
      cbn [negb]. rewrite andb_true_r, orb_false_r. reflexivity.
Qed.

Lemma restart_mode_bits (oldmode : Z) :
  Z.testbit (Z.lor oldmode RESTART) 7 = true /\
  forall i, i <> 7 -> Z.testbit (Z.lor oldmode RESTART) i = Z.testbit oldmode i.
Proof.
  split.
  - rewrite Z.lor_spec. change (Z.testbit RESTART 7) with true. apply orb_true_r.
  - intros i H7. destruct (Z.ltb_spec i 0) as [Hneg | Hpos].
    + rewrite !Z.testbit_neg_r by exact Hneg. reflexivity.
    + rewrite Z.lor_spec. change RESTART with (2 ^ 7).
      rewrite Z.pow2_bits_eqb by lia.
      destruct (Z.eqb_spec 7 i) as [E | _]; [lia | ].
      apply orb_false_r.
Qed.

(** A returning [set_pwm_freq] leaves the SLEEP bit of MODE1 as it read it:
    with [oldmode] the value that the world answered to its MODE1 read, the
    latest MODE1 value of its traffic has the SLEEP bit of [oldmode].  The
    value it writes to put the chip to sleep differs from [oldmode] in SLEEP
    (set) and RESTART (cleared) only, and the last value in RESTART (set)
    only. *)
Theorem set_pwm_freq_restores_mode self freq_hz w tr tr' :
  set_pwm_freq self freq_hz w tr = (Ok tt, tr') ->
  exists oldmode prescale rc,
    w (tr ++ [I2cGet (bus self) (addr self) MODE1])
      = Completed rc (Text (Some oldmode)) /\
    prescale_of freq_hz = Ok prescale /\
    tr' = tr ++ freq_sequence self oldmode prescale /\
    (forall a, asleep_after a (freq_sequence self oldmode prescale)
               = Z.testbit oldmode 4) /\
    Z.testbit (Z.lor (Z.land oldmode (Z.lnot RESTART)) SLEEP) 4 = true /\
    Z.testbit (Z.lor (Z.land oldmode (Z.lnot RESTART)) SLEEP) 7 = false /\
    (forall i, i <> 4 -> i <> 7 ->
       Z.testbit (Z.lor (Z.land oldmode (Z.lnot RESTART)) SLEEP) i
       = Z.testbit oldmode i) /\
    Z.testbit (Z.lor oldmode RESTART) 7 = true /\
    (forall i, i <> 7 ->
       Z.testbit (Z.lor oldmode RESTART) i = Z.testbit oldmode i).
Proof.
  intros H.
  apply set_pwm_freq_ok in H as (p & oldmode & rc & Hp & Hw & ->).
  exists oldmode, p, rc. split; [exact Hw | ]. split; [exact Hp | ].
  split; [reflexivity | ].
  destruct (sleep_mode_bits oldmode) as (S4 & S7 & Sother).
  destruct (restart_mode_bits oldmode) as (R7 & Rother).
  split; [ | auto 10].
  intros a. unfold freq_sequence. cbn [asleep_after].
  change (MODE1 =? MODE1) with true. change (PRESCALE =? MODE1) with false.
  cbv iota. apply Rother. lia.
Qed.

Lemma set_pwm_freq_restores_mode_witness :
  set_pwm_freq pwm0 50 (answering 0x31) [] =
    (Ok tt, [I2cGet 0 0x40 0x00; I2cSet 0 0x40 0x00 0x31;
             I2cSet 0 0x40 0xFE 121; I2cSet 0 0x40 0x00 0x31;
             Sleep 0.005; I2cSet 0 0x40 0x00 0xB1]) /\
  exists oldmode prescale rc,
    answering 0x31 ([] ++ [I2cGet (bus pwm0) (addr pwm0) MODE1])
      = Completed rc (Text (Some oldmode)) /\
    prescale_of 50 = Ok prescale /\
    [I2cGet 0 0x40 0x00; I2cSet 0 0x40 0x00 0x31;
     I2cSet 0 0x40 0xFE 121; I2cSet 0 0x40 0x00 0x31;
     Sleep 0.005; I2cSet 0 0x40 0x00 0xB1]
    = [] ++ freq_sequence pwm0 oldmode prescale /\
    (forall a, asleep_after a (freq_sequence pwm0 oldmode prescale)
               = Z.testbit oldmode 4) /\
    Z.testbit (Z.lor (Z.land oldmode (Z.lnot RESTART)) SLEEP) 4 = true /\
    Z.testbit (Z.lor (Z.land oldmode (Z.lnot RESTART)) SLEEP) 7 = false /\
    (forall i, i <> 4 -> i <> 7 ->
       Z.testbit (Z.lor (Z.land oldmode (Z.lnot RESTART)) SLEEP) i
       = Z.testbit oldmode i) /\
    Z.testbit (Z.lor oldmode RESTART) 7 = true /\
    (forall i, i <> 7 ->
       Z.testbit (Z.lor oldmode RESTART) i = Z.testbit oldmode i).
Proof.
  split; [vm_compute; reflexivity | ].
  apply (set_pwm_freq_restores_mode pwm0 50 (answering 0x31) []).
  vm_compute. reflexivity.
Defined.

Lemma read_reg_cases self reg w tr :
  exists r,
    read_reg self reg w tr = (r, tr ++ [I2cGet (bus self) (addr self) reg]) /\
    ((exists m, r = Ok m) \/ r = Raise OSError \/
     r = Raise UnicodeDecodeError \/ r = Raise ValueError).
Proof.
  unfold read_reg, bind, subprocess_run.
  destruct (w (tr ++ [I2cGet (bus self) (addr self) reg]))
    as [| rc [| [m |]]]; cbn [decode int16 raise ret]; eexists; split;
    try reflexivity; eauto.
Qed.

(** Close a branch of [set_pwm_freq] that ended with an exception. *)
Ltac abort_rest :=
  split; [rewrite <- ?app_assoc; reflexivity | ];
  split; [lia | ]; split; [lia | ];
  split; [intros K; first [discriminate K | lia] | ];
  split; [intros _; match goal with
                    | E : ?w ?t = _ |- failed_with (?w ?t) _ =>
                        rewrite E; exact I
                    end | ];
  split; [intros K;
          first [lia
                | split; [reflexivity
                         | eexists; first [eassumption | reflexivity]]] | ];
  let a := fresh "a" in
  intros K a;
  first [ exfalso; destruct K as [[K1 K2] | [K | [K1 K2]]];
          first [discriminate K1 | discriminate K2 | discriminate K | lia]
        | cbn [firstn freq_sequence started];
          repeat match goal with
                 | E : ?w ?t = _ |- context [?w ?t] => rewrite E
                 end;
          cbn [ran asleep_after];
          change (MODE1 =? MODE1) with true;
          change (PRESCALE =? MODE1) with false;
          cbv iota;
          rewrite Z.lor_spec; change (Z.testbit SLEEP 4) with true;
          apply orb_true_r ].

Ltac abort_leaf_at n :=
  exists n; first [ exists 0, 0; abort_rest | do 2 eexists; abort_rest ].

Ltac abort_leaf :=
  first [ abort_leaf_at 1%nat | abort_leaf_at 2%nat | abort_leaf_at 3%nat
        | abort_leaf_at 4%nat | abort_leaf_at 6%nat ].

(** A [set_pwm_freq] that raises stops inside its six-event sequence (read,
    sleep-mode write, PRESCALE write, restore write, sleep, restart write):
    before the read, for an exception of the pre-scale arithmetic, or at the
    transaction whose process failed, never right after the sleep.  When the
    sleep-mode write took place and the restore write did not (the call
    stopped at the sleep-mode write on undecodable output, at the PRESCALE
    write, or at the restore write because its tool did not start), the
    latest MODE1 write that took place is the sleep-mode one, which has the
    SLEEP bit set: the call does not undo the sleep it asked for. *)
Theorem set_pwm_freq_abort self freq_hz w tr e tr' :
  set_pwm_freq self freq_hz w tr = (Raise e, tr') ->
  exists n oldmode prescale,
    tr' = tr ++ firstn n (freq_sequence self oldmode prescale) /\
    (n <= 6)%nat /\ n <> 5%nat /\
    (n = 0%nat -> prescale_of freq_hz = Raise e) /\
    ((1 <= n)%nat -> failed_with (w tr') e) /\
    ((2 <= n)%nat ->
     prescale_of freq_hz = Ok prescale /\
     exists rc, w (tr ++ [I2cGet (bus self) (addr self) MODE1])
                = Completed rc (Text (Some oldmode))) /\
    (n = 2%nat /\ e = UnicodeDecodeError \/ n = 3%nat \/
     n = 4%nat /\ e = OSError ->
     forall a,
       asleep_after a
         (started w tr (firstn n (freq_sequence self oldmode prescale)))
       = true).
Proof.
  unfold set_pwm_freq.
  destruct (prescale_of freq_hz) as [p | e0] eqn:Hp.
  2: { unfold bind, lift. intros [= <- <-]. exists 0%nat, 0, 0.
       split; [symmetry; apply app_nil_r | ].
       split; [lia | ]. split; [lia | ]. split; [reflexivity | ].
       split; [lia | ]. split; [lia | ].
       intros [[K _] | [K | [K _]]]; discriminate K. }
  rewrite (bind_step _ _ _ _ p tr eq_refl).
  repeat (next_transaction; try (intros [= <- <-]; abort_leaf)).
  match goal with
  | |- context [write_reg ?s ?r ?v ?w ?t] =>
      rewrite (write_reg_world s r v w t);
      destruct (w (t ++ [I2cSet (bus s) (addr s) r v])) as [| ? [| ?]] eqn:?
  end; intros [= <- <-]; abort_leaf.
Qed.

Lemma set_pwm_freq_abort_witness :
  set_pwm_freq pwm0 60 (prescale_write_not_started 0x01) []
    = (Raise OSError,
       [I2cGet 0 0x40 0x00; I2cSet 0 0x40 0x00 0x11; I2cSet 0 0x40 0xFE 101]) /\
  exists n oldmode prescale,
    [I2cGet 0 0x40 0x00; I2cSet 0 0x40 0x00 0x11; I2cSet 0 0x40 0xFE 101]
    = [] ++ firstn n (freq_sequence pwm0 oldmode prescale) /\
    (n <= 6)%nat /\ n <> 5%nat /\
    (n = 0%nat -> prescale_of 60 = Raise OSError) /\
    ((1 <= n)%nat ->
     failed_with
       (prescale_write_not_started 0x01
          [I2cGet 0 0x40 0x00; I2cSet 0 0x40 0x00 0x11; I2cSet 0 0x40 0xFE 101])
       OSError) /\
    ((2 <= n)%nat ->
     prescale_of 60 = Ok prescale /\
     exists rc, prescale_write_not_started 0x01
                  ([] ++ [I2cGet (bus pwm0) (addr pwm0) MODE1])
                = Completed rc (Text (Some oldmode))) /\
    (n = 2%nat /\ OSError = UnicodeDecodeError \/ n = 3%nat \/
     n = 4%nat /\ OSError = OSError ->
     forall a,
       asleep_after a
         (started (prescale_write_not_started 0x01) []
            (firstn n (freq_sequence pwm0 oldmode prescale)))
       = true).
Proof.
  split; [vm_compute; reflexivity | ].
  apply (set_pwm_freq_abort pwm0 60 (prescale_write_not_started 0x01) [] OSError).
  vm_compute. reflexivity.
Defined.

(** ** What every session puts on the bus *)

Section Produces.

Context {W : world -> Prop} {P : event -> Prop}.

Lemma produces_ret {A : Type} (Q : A -> Prop) (a : A) :
  Q a -> produces W P Q (ret a).
Proof.
  intros Ha w tr _. exists []. split; [symmetry; apply app_nil_r | ].
  split; [constructor | ]. intros a' [= <-]. exact Ha.
Qed.

Lemma produces_lift {A : Type} (Q : A -> Prop) (r : result A) :
  (forall a, r = Ok a -> Q a) -> produces W P Q (lift r).
Proof.
  intros Hr w tr _. exists []. split; [symmetry; apply app_nil_r | ].
  split; [constructor | ]. exact Hr.
Qed.

Lemma produces_bind {A B : Type} (Q : A -> Prop) (R : B -> Prop)
    (m : io A) (f : A -> io B) :
  produces W P Q m -> (forall a, Q a -> produces W P R (f a)) ->
  produces W P R (bind m f).
Proof.
  intros Hm Hf w tr Hw. unfold bind.
  destruct (Hm w tr Hw) as (d1 & E1 & F1 & Q1).
  destruct (m w tr) as [[a | e] tr1]; cbn [fst snd] in *; subst tr1.
  - destruct (Hf a (Q1 a eq_refl) w (tr ++ d1) Hw) as (d2 & E2 & F2 & Q2).
    exists (d1 ++ d2). split; [rewrite E2; symmetry; apply app_assoc | ].
    split; [apply Forall_app; split; assumption | exact Q2].
  - exists d1. split; [reflexivity | ]. split; [exact F1 | ].
    intros b H. discriminate H.
Qed.

Lemma produces_weaken {A : Type} (Q Q' : A -> Prop) (m : io A) :
  produces W P Q m -> (forall a, Q a -> Q' a) -> produces W P Q' m.
Proof.
  intros Hm HQ w tr Hw. destruct (Hm w tr Hw) as (d & E & F & Hq).
  exists d. split; [exact E | ]. split; [exact F | ].
  intros a Ha. apply HQ, Hq, Ha.
Qed.

Lemma produces_sleep secs :
  P (Sleep secs) -> produces W P any_value (time_sleep secs).
Proof.
  intros Hp w tr _. exists [Sleep secs]. split; [reflexivity | ].
  split; [repeat constructor; exact Hp | intros; exact I].
Qed.

Lemma produces_write_reg self reg regval :
  P (I2cSet (bus self) (addr self) reg regval) ->
  produces W P any_value (write_reg self reg regval).
Proof.
  intros Hp w tr _. exists [I2cSet (bus self) (addr self) reg regval].
  destruct (write_reg_cases self reg regval w tr) as (r & -> & _).
  split; [reflexivity | ].
  split; [repeat constructor; exact Hp | intros; exact I].
Qed.

Lemma produces_read_reg self reg :
  P (I2cGet (bus self) (addr self) reg) ->
  produces W P any_value (read_reg self reg).
Proof.
  intros Hp w tr _. exists [I2cGet (bus self) (addr self) reg].
  destruct (read_reg_cases self reg w tr) as (r & -> & _).
  split; [reflexivity | ].
  split; [repeat constructor; exact Hp | intros; exact I].
Qed.

Lemma produces_detect self :
  P (I2cDetect (bus self) (addr self)) ->
  produces W P any_value (detect self).
Proof.
  intros Hp w tr _. exists [I2cDetect (bus self) (addr self)].
  split; [ | split; [repeat constructor; exact Hp | intros; exact I]].
  unfold detect, bind, subprocess_run.
  destruct (w (tr ++ [I2cDetect (bus self) (addr self)])) as [| rc [| text]];
    reflexivity.
Qed.

Lemma produces_write_raw self raw :
  P (I2cSetRaw (bus self) (addr self) raw) ->
  produces W P any_value (write_raw self raw).
Proof.
  intros Hp w tr _. exists [I2cSetRaw (bus self) (addr self) raw].
  split; [ | split; [repeat constructor; exact Hp | intros; exact I]].
  unfold write_raw, bind, subprocess_run.
  destruct (w (tr ++ [I2cSetRaw (bus self) (addr self) raw])) as [| rc [| text]];
    reflexivity.
Qed.

End Produces.

(** Against a chip whose reads are bytes, [read_reg] returns a byte. *)
Lemma produces_read_byte (P : event -> Prop) self reg :
  P (I2cGet (bus self) (addr self) reg) ->
  produces reads_bytes P is_byte (read_reg self reg).
Proof.
  intros Hp w tr Hw. exists [I2cGet (bus self) (addr self) reg].
  destruct (read_reg self reg w tr) as [r tr'] eqn:E.
  destruct (read_reg_cases self reg w tr) as (r' & E' & _).
  rewrite E in E'. injection E' as <- ->. cbn [fst snd].
  split; [reflexivity | ]. split; [repeat constructor; exact Hp | ].
  intros m ->. apply read_reg_ok in E as [_ [rc Hrc]].
  exact (Hw _ _ _ Hrc).
Qed.

(** Peel a sequence of statements off a [produces] goal, leaving the side
    conditions on the events. *)
Ltac produces_steps :=
  repeat first
    [ apply produces_ret; try exact I
    | apply produces_sleep
    | apply produces_write_reg
    | apply produces_write_raw
    | apply produces_detect
    | eapply produces_bind;
        [ first [ apply produces_write_reg | apply produces_sleep
                | apply produces_read_reg | apply produces_detect
                | apply produces_write_raw ]
        | intros ? _ ] ].

Ltac address_events := cbn [addresses bus addr]; auto.

Lemma addresses_set_all_pwm W self on off :
  produces W (addresses (bus self) (addr self)) any_value
    (set_all_pwm self on off).
Proof. unfold set_all_pwm. produces_steps; address_events. Qed.

Lemma addresses_set_pwm W self channel on off :
  produces W (addresses (bus self) (addr self)) any_value
    (set_pwm self channel on off).
Proof. unfold set_pwm. produces_steps; address_events. Qed.

Lemma addresses_set_pwm_freq W self freq_hz :
  produces W (addresses (bus self) (addr self)) any_value
    (set_pwm_freq self freq_hz).
Proof.
  unfold set_pwm_freq.
  eapply produces_bind; [apply (produces_lift any_value); intros; exact I | ].
  intros prescale _. produces_steps; address_events.
Qed.

Lemma addresses_init W b a :
  produces W (addresses b a) (fun self => self = {| bus := b; addr := a |})
    (PCA9685_init b a).
Proof.
  unfold PCA9685_init, MCP2221A_init.
  eapply produces_bind.
  { eapply produces_bind; [apply produces_detect; address_events | ].
    intros _ _. apply (produces_ret (fun self => self = {| bus := b; addr := a |})).
    reflexivity. }
  intros self ->.
  eapply produces_bind;
    [apply (addresses_set_all_pwm W {| bus := b; addr := a |}) | intros _ _].
  produces_steps; address_events.
Qed.

Lemma addresses_do_call W self c :
  produces W (addresses (bus self) (addr self)) any_value (do_call self c).
Proof.
  destruct c; cbn [do_call].
  - apply addresses_set_pwm_freq.
  - apply addresses_set_pwm.
  - apply addresses_set_all_pwm.
  - unfold software_reset. apply produces_write_raw. address_events.
  - produces_steps; address_events.
Qed.

Lemma addresses_run_calls W self cs :
  produces W (addresses (bus self) (addr self)) any_value (run_calls self cs).
Proof.
  induction cs as [| c cs IH]; cbn [run_calls].
  - apply produces_ret. exact I.
  - eapply produces_bind; [apply addresses_do_call | intros _ _; exact IH].
Qed.

(** A session talks to one device: every command of its trace, whatever the
    calls, their arguments and the world, carries the bus number and the
    address given to the constructor. *)
Theorem session_addresses_one_device b a cs w :
  Forall (addresses b a) (snd (session b a cs w [])).
Proof.
  assert (H : produces any_world (addresses b a) any_value (session b a cs)).
  { unfold session. eapply produces_bind; [apply addresses_init | ].
    intros self ->. apply (addresses_run_calls any_world {| bus := b; addr := a |}). }
  destruct (H w [] I) as (d & -> & F & _). exact F.
Qed.

(** ** Bytes on the wire *)

Lemma byte_table :
  forallb (fun m => (0 <=? Z.land m (Z.lnot SLEEP)) && (Z.land m (Z.lnot SLEEP) <=? 255) &&
                    (0 <=? Z.lor (Z.land m (Z.lnot RESTART)) SLEEP) &&
                    (Z.lor (Z.land m (Z.lnot RESTART)) SLEEP <=? 255) &&
                    (0 <=? Z.lor m RESTART) && (Z.lor m RESTART <=? 255))
    (Zrange 0 256) = true.
Proof. vm_compute. reflexivity. Qed.

(** The MODE1 values computed from a byte are bytes. *)
Lemma byte_modes (m : Z) :
  is_byte m ->
  is_byte (Z.land m (Z.lnot SLEEP)) /\
  is_byte (Z.lor (Z.land m (Z.lnot RESTART)) SLEEP) /\
  is_byte (Z.lor m RESTART).
Proof.
  intros H. pose proof byte_table as T. rewrite forallb_forall in T.
  specialize (T m (Zrange_In 0 256 m ltac:(unfold is_byte in H; lia))).
  repeat (apply andb_true_iff in T as [T ?]).
  unfold is_byte. lia.
Qed.

Ltac byte_events :=
  cbn [byte_sized bus addr];
  unfold is_byte, ALL_LED_ON_L, ALL_LED_ON_H, ALL_LED_OFF_L, ALL_LED_OFF_H,
    LED0_ON_L, LED0_ON_H, LED0_OFF_L, LED0_OFF_H, MODE1, MODE2, PRESCALE,
    OUTDRV, ALLCALL in *;
  repeat split;
  try lia;
  try (apply low_byte_range);
  try (match goal with
       | |- _ <= Z.shiftr ?t 8 => pose proof (high_byte_range t); lia
       | |- Z.shiftr ?t 8 <= _ => pose proof (high_byte_range t); lia
       end).

Lemma bytes_set_all_pwm W self on off :
  is_byte (addr self) -> 0 <= on <= 4095 -> 0 <= off <= 4095 ->
  produces W byte_sized any_value (set_all_pwm self on off).
Proof.
  intros Ha Hon Hoff. unfold set_all_pwm. produces_steps; byte_events.
Qed.

Lemma bytes_set_pwm W self channel on off :
  is_byte (addr self) -> 0 <= channel <= 15 ->
  0 <= on <= 4095 -> 0 <= off <= 4095 ->
  produces W byte_sized any_value (set_pwm self channel on off).
Proof.
  intros Ha Hc Hon Hoff. unfold set_pwm. produces_steps; byte_events.
Qed.

Lemma bytes_set_pwm_freq self freq_hz :
  is_byte (addr self) -> 24 <= freq_hz <= 1526 ->
  produces reads_bytes byte_sized any_value (set_pwm_freq self freq_hz).
Proof.
  intros Ha Hf. unfold set_pwm_freq.
  destruct (prescale_range freq_hz Hf) as (p & -> & Hp).
  eapply produces_bind;
    [apply (produces_lift (fun q => q = p)); intros q [= <-]; reflexivity | ].
  intros prescale ->.
  eapply produces_bind; [apply produces_read_byte; byte_events | ].
  intros oldmode Hold.
  destruct (byte_modes oldmode Hold) as (_ & Hnew & Hlast).
  produces_steps; byte_events.
Qed.

Lemma bytes_init b a :
  is_byte a ->
  produces reads_bytes byte_sized (fun self => self = {| bus := b; addr := a |})
    (PCA9685_init b a).
Proof.
  intros Ha. unfold PCA9685_init, MCP2221A_init.
  eapply produces_bind.
  { eapply produces_bind; [apply produces_detect; byte_events | ].
    intros _ _. apply (produces_ret (fun self => self = {| bus := b; addr := a |})).
    reflexivity. }
  intros self ->.
  eapply produces_bind;
    [apply (bytes_set_all_pwm reads_bytes {| bus := b; addr := a |});
     cbn [addr]; try assumption; lia | intros _ _].
  do 3 (eapply produces_bind;
        [first [apply produces_write_reg | apply produces_sleep]; byte_events
        | intros _ _]).
  eapply produces_bind; [apply produces_read_byte; byte_events | ].
  intros mode1 Hm. destruct (byte_modes mode1 Hm) as (Hwake & _ & _).
  produces_steps; byte_events.
Qed.

Lemma bytes_do_call self c :
  is_byte (addr self) -> in_range c = true ->
  produces reads_bytes byte_sized any_value (do_call self c).
Proof.
  intros Ha Hc. destruct c; cbn [do_call in_range] in *;
    repeat (apply andb_true_iff in Hc as [Hc ?]);
    repeat match goal with
           | H : (_ <=? _) = true |- _ => apply Z.leb_le in H
           end.
  - apply bytes_set_pwm_freq; [assumption | lia].
  - apply bytes_set_pwm; [assumption | lia ..].
  - apply bytes_set_all_pwm; [assumption | lia ..].
  - unfold software_reset. apply produces_write_raw. byte_events.
  - eapply produces_bind; [apply (produces_read_reg (W := reads_bytes)); byte_events | ].
    intros _ _. apply produces_ret. exact I.
Qed.

Lemma bytes_run_calls self cs :
  is_byte (addr self) -> forallb in_range cs = true ->
  produces reads_bytes byte_sized any_value (run_calls self cs).
Proof.
  intros Ha. induction cs as [| c cs IH]; cbn [run_calls forallb]; intros H.
  - apply produces_ret. exact I.
  - apply andb_true_iff in H as [Hc Hcs].
    eapply produces_bind; [apply bytes_do_call; assumption | ].
    intros _ _. exact (IH Hcs).
Qed.

(** With a device address that is a byte, calls whose arguments are in the
    domain of the chip ([in_range]) and a chip whose register reads are
    bytes, every register number and every value that a session puts into a
    command is in [0,255], the MODE1 values computed from the reads
    included. *)
Theorem session_bytes b a cs w :
  0 <= a <= 255 ->
  forallb in_range cs = true ->
  reads_bytes w ->
  Forall byte_sized (snd (session b a cs w [])).
Proof.
  intros Ha Hcs Hw.
  assert (H : produces reads_bytes byte_sized any_value (session b a cs)).
  { unfold session. eapply produces_bind; [apply bytes_init; exact Ha | ].
    intros self ->. apply bytes_run_calls; [exact Ha | exact Hcs]. }
  destruct (H w [] Hw) as (d & -> & F & _). exact F.
Qed.

Lemma answering_reads_bytes (m : Z) : is_byte m -> reads_bytes (answering m).
Proof.
  intros Hm tr rc m'. unfold answering.
  destruct (last tr (Sleep 0)); intros [= ]; subst; exact Hm.
Qed.

Lemma session_bytes_witness :
  0 <= 0x40 <= 255 /\
  forallb in_range [SetPwmFreq 60; SetPwm 15 0 4095; ReadReg 0xFE] = true /\
  reads_bytes (answering 0xFF) /\
  Forall byte_sized
    (snd (session 0 0x40 [SetPwmFreq 60; SetPwm 15 0 4095; ReadReg 0xFE]
            (answering 0xFF) [])).
Proof.
  assert (Ha : 0 <= 0x40 <= 255) by lia.
  assert (Hw : reads_bytes (answering 0xFF))
    by (apply answering_reads_bytes; unfold is_byte; lia).
  split; [exact Ha | ]. split; [reflexivity | ]. split; [exact Hw | ].
  apply (session_bytes 0 0x40 [SetPwmFreq 60; SetPwm 15 0 4095; ReadReg 0xFE]
           (answering 0xFF) Ha eq_refl Hw).
Defined.

(** ** Exit statuses and failures, for whole sessions *)

Lemma blind_lift {A : Type} (r : result A) : status_blind (lift r).
Proof. intros rc w tr. reflexivity. Qed.

Lemma blind_do_call self c : status_blind (do_call self c).
Proof.
  destruct c; cbn [do_call];
    unfold set_pwm_freq, set_pwm, set_all_pwm, software_reset, write_raw;
    repeat (apply blind_bind; [auto using blind_lift with blind | intros ?]);
    auto with blind.
Qed.

Lemma blind_run_calls self cs : status_blind (run_calls self cs).
Proof.
  induction cs as [| c cs IH]; cbn [run_calls].
  - apply blind_ret.
  - apply blind_bind; [apply blind_do_call | intros _; exact IH].
Qed.

(** No operation of the driver ever looks at an exit status: a session run
    against a world and against the same world with its exit statuses
    replaced in any way gives the same result and the same trace.  A
    transaction that the tools report as failed goes unnoticed. *)
Theorem session_status_blind b a cs rc w tr :
  session b a cs (with_status rc w) tr = session b a cs w tr.
Proof.
  revert rc w tr. change (status_blind (session b a cs)).
  unfold session. apply blind_bind; [apply blind_init | ].
  intros self. apply blind_run_calls.
Qed.

Section FailStop.

Context {arith : exn -> Prop}.








End FailStop.









(** ** The script *)









Lemma guard_while_true rounds (body : io unit) :
  extends_guarded body -> extends_guarded (while_true rounds body).
Proof.
  intros Hb. induction rounds as [| n IH]; cbn [while_true].
  - apply guard_ret.
  - apply guard_bind; [exact Hb | intros _; exact IH].
Qed.

Lemma produces_while_true W P rounds (body : io unit) :
  produces W P any_value body ->
  produces W P any_value (while_true rounds body).
Proof.
  intros Hb. induction rounds as [| n IH]; cbn [while_true].
  - apply produces_ret. exact I.
  - eapply produces_bind; [exact Hb | intros _ _; exact IH].
Qed.

Lemma guard_main b m rounds : extends_guarded (main b m rounds).
Proof.
  unfold main. apply guard_bind; [apply guard_init | intros pwm].
  destruct m;
    repeat first
      [ apply guard_ret
      | apply guard_while_true
      | apply guard_set_pwm_freq
      | apply guard_set_all_pwm
      | apply guard_sleep
      | apply guard_write_raw
      | apply guard_set_pwm; lia
      | apply guard_bind; [ | intros ? ] ].
Qed.

Lemma addresses_main b m rounds :
  produces any_world (addresses b ADDRESS) any_value (main b m rounds).
Proof.
  unfold main. eapply produces_bind; [apply addresses_init | intros pwm ->].
  pose proof (addresses_set_pwm_freq any_world {| bus := b; addr := ADDRESS |}) as Hf.
  pose proof (addresses_set_all_pwm any_world {| bus := b; addr := ADDRESS |}) as Ha.
  pose proof (addresses_set_pwm any_world {| bus := b; addr := ADDRESS |}) as Hc.
  cbn [bus addr] in Hf, Ha, Hc.
  destruct m;
    repeat first
      [ apply produces_ret; exact I
      | apply produces_while_true
      | apply Hf | apply Ha | apply Hc
      | apply produces_sleep; exact I
      | unfold software_reset; apply (produces_write_raw {| bus := b; addr := ADDRESS |});
        cbn; auto
      | eapply produces_bind; [ | intros ? _ ] ].
Qed.

Lemma bytes_main b m rounds :
  produces reads_bytes byte_sized any_value (main b m rounds).
Proof.
  assert (Haddr : is_byte (addr {| bus := b; addr := ADDRESS |}))
    by (cbn [addr]; unfold is_byte, ADDRESS; lia).
  unfold main. eapply produces_bind;
    [apply bytes_init; unfold is_byte, ADDRESS; lia | intros pwm ->].
  pose proof (bytes_set_pwm_freq {| bus := b; addr := ADDRESS |} 60 Haddr
                ltac:(lia)) as Hf.
  destruct m;
    repeat first
      [ apply produces_ret; exact I
      | apply produces_while_true
      | apply Hf
      | apply bytes_set_all_pwm; [exact Haddr | unfold servo_min, servo_max; lia ..]
      | apply bytes_set_pwm; [exact Haddr | unfold servo_min, servo_max; lia ..]
      | apply produces_sleep; exact I
      | unfold software_reset; apply (produces_write_raw {| bus := b; addr := ADDRESS |});
        unfold ADDRESS; byte_events
      | eapply produces_bind; [ | intros ? _ ] ].
Qed.

(** Every run of the script, in every mode, observed after any number of
    loop iterations, against any world and whether or not it raises, keeps
    three invariants: PRESCALE is written only when the latest MODE1 write
    set SLEEP; every command goes to address 0x40 of the bus given on the
    command line; and, when the chip's register reads are bytes, every
    register number and value on the wire is a byte. *)
Theorem main_invariants b m rounds w :
  prescale_guarded false (snd (main b m rounds w [])) = true /\
  Forall (addresses b 0x40) (snd (main b m rounds w [])) /\
  (reads_bytes w -> Forall byte_sized (snd (main b m rounds w []))).
Proof.
  split; [ | split].
  - destruct (guard_main b m rounds w []) as (d & -> & G). apply G.
  - destruct (addresses_main b m rounds w [] I) as (d & -> & F & _). exact F.
  - intros Hw.
    destruct (bytes_main b m rounds w [] Hw) as (d & -> & F & _). exact F.
Qed.

(** ** The command lines *)

Lemma hex_uint_head (d : Hexadecimal.uint) :
  exists c r,
    HexadecimalString.NilZero.string_of_uint d = String.String c r /\
    c <> "-"%char.
Proof.
  destruct d; cbn; do 2 eexists; (split; [reflexivity | discriminate]).
Qed.

Lemma to_hex_int_cases (n : Z) :
  (exists d, Z.to_hex_int n = Hexadecimal.Pos d /\ d <> Hexadecimal.Nil) \/
  (exists d, Z.to_hex_int n = Hexadecimal.Neg d /\ d <> Hexadecimal.Nil).
Proof.
  destruct n as [| p | p]; cbn.
  - left. eexists. split; [reflexivity | discriminate].
  - left. eexists.
    split; [reflexivity | apply HexadecimalPos.Unsigned.to_uint_nonnil].
  - right. eexists.
    split; [reflexivity | apply HexadecimalPos.Unsigned.to_uint_nonnil].
Qed.

(** The ["0x%02x"] rendering reads back as the number it was made from. *)
Lemma read_fmt_0x02x (n : Z) : read_0x (fmt_0x02x n) = Some n.
Proof.
  unfold fmt_0x02x, fmt_x.
  assert (P : HexadecimalString.NilZero.int_of_string
                (HexadecimalString.NilZero.string_of_int (Z.to_hex_int n))
              = Some (Z.to_hex_int n)).
  { apply HexadecimalString.NilZero.isi;
      destruct (to_hex_int_cases n) as [(d & -> & Hd) | (d & -> & Hd)];
      congruence. }
  assert (V : Z.of_hex_int (Z.to_hex_int n) = n) by apply HexadecimalZ.of_to.
  destruct (to_hex_int_cases n) as [(d & E & Hd) | (d & E & Hd)]; rewrite E in *.
  - cbn [HexadecimalString.NilZero.string_of_int] in *.
    destruct (hex_uint_head d) as (c & r & Es & Hc). rewrite Es in *.
    assert (Z' : zero_pad 2 (String.String c r)
                 = zeros (2 - String.length (String.String c r))
                     (String.String c r)).
    { unfold zero_pad. destruct c as [[] [] [] [] [] [] [] []];
        try reflexivity. congruence. }
    rewrite Z'. cbn [String.length]. destruct r as [| c' r'].
    + cbn [String.length Nat.sub zeros String.append read_0x].
      revert P. unfold HexadecimalString.NilZero.int_of_string.
      destruct (Ascii.eqb_spec c "-"%char) as [-> | _]; [congruence | ].
      change (Ascii.eqb "0" "-") with false. cbv iota.
      cbn [HexadecimalString.NilZero.uint_of_string
           HexadecimalString.NilEmpty.uint_of_string].
      destruct (HexadecimalString.uint_of_char c (Some Hexadecimal.Nil))
        as [u |]; cbn; intros [= ->].
      cbn in V. rewrite <- V. reflexivity.
    + cbn [String.length Nat.sub zeros String.append read_0x].
      rewrite P. cbn [option_map]. rewrite V. reflexivity.
  - cbn [HexadecimalString.NilZero.string_of_int] in *.
    destruct (hex_uint_head d) as (c & r & Es & Hc). rewrite Es in *.
    cbn [zero_pad String.length Nat.sub zeros String.append read_0x].
    rewrite P. cbn [option_map]. rewrite V. reflexivity.
Qed.

Lemma fmt_0x02x_inj (a b : Z) : fmt_0x02x a = fmt_0x02x b -> a = b.
Proof.
  intros H. apply (f_equal read_0x) in H. rewrite !read_fmt_0x02x in H.
  injection H as ->. reflexivity.
Qed.

Lemma fmt_d_inj (a b : Z) : fmt_d a = fmt_d b -> a = b.
Proof.
  unfold fmt_d. intros H.
  assert (P : forall n, DecimalString.NilZero.int_of_string
                (DecimalString.NilZero.string_of_int (Z.to_int n))
              = Some (Z.to_int n)).
  { intros n. apply DecimalString.NilZero.isi; destruct n as [| p | p]; cbn;
      try discriminate; intros [= K];
      exact (DecimalPos.Unsigned.to_uint_nonnil p K). }
  apply (f_equal DecimalString.NilZero.int_of_string) in H.
  rewrite !P in H. injection H as H. apply DecimalZ.to_int_inj. exact H.
Qed.

(** The command lines lose nothing.  Every ["0x%02x"] argument reads back as
    the integer it was made from, negative or wider than a byte included,
    and two commands with the same command line are the same command: same
    tool, same bus, same address, same register, same value. *)
Theorem command_line_faithful :
  (forall n, read_0x (fmt_0x02x n) = Some n) /\
  (forall e1 e2 l,
     command_line e1 = Some l -> command_line e2 = Some l -> e1 = e2).
Proof.
  split; [exact read_fmt_0x02x | ].
  intros e1 e2 l H1 H2.
  destruct e1, e2; cbn [command_line] in H1, H2;
    try discriminate H1; try discriminate H2;
    rewrite <- H2 in H1; clear H2; try discriminate H1;
    injection H1; intros;
    repeat match goal with
           | H : fmt_d _ = fmt_d _ |- _ => apply fmt_d_inj in H
           | H : fmt_0x02x _ = fmt_0x02x _ |- _ => apply fmt_0x02x_inj in H
           | H : zero_pad 2 (fmt_x ?a) = zero_pad 2 (fmt_x ?b) |- _ =>
               assert (a = b)
                 by (apply fmt_0x02x_inj; unfold fmt_0x02x; rewrite H;
                     reflexivity);
               clear H
           end;
    subst; reflexivity.
Qed.

Lemma fmt_byte_table :
  forallb (fun n => Nat.eqb (String.length (fmt_0x02x n)) 4) (Zrange 0 256)
  = true.
Proof. vm_compute. reflexivity. Qed.

Lemma fmt_byte_length (n : Z) :
  is_byte n -> String.length (fmt_0x02x n) = 4%nat.
Proof.
  intros H. pose proof fmt_byte_table as T. rewrite forallb_forall in T.
  specialize (T n (Zrange_In 0 256 n ltac:(unfold is_byte in H; lia))).
  apply Nat.eqb_eq. exact T.
Qed.

(** A command whose numbers are bytes has fixed-width arguments: after the
    tool name, [-y] and the bus number, every argument is ["0x"] followed by
    exactly two digits. *)
Theorem byte_command_line (e : event) (l : list String.string) :
  byte_sized e ->
  command_line e = Some l ->
  Forall (fun s => String.length s = 4%nat) (skipn 3 l).
Proof.
  intros Hb H.
  destruct e; cbn [command_line byte_sized] in *; try discriminate H;
    injection H as <-; cbn [skipn];
    repeat constructor; apply fmt_byte_length; unfold is_byte; tauto.
Qed.

Lemma byte_command_line_witness :
  byte_sized (I2cSet 0 0x40 0xFE 101) /\
  command_line (I2cSet 0 0x40 0xFE 101)
    = Some ["i2cset"; "-y"; "0"; "0x40"; "0xfe"; "0x65"]%string /\
  Forall (fun s => String.length s = 4%nat)
    (skipn 3 ["i2cset"; "-y"; "0"; "0x40"; "0xfe"; "0x65"]%string).
Proof.
  assert (Hb : byte_sized (I2cSet 0 0x40 0xFE 101)) by (cbn; lia).
  split; [exact Hb | ]. split; [vm_compute; reflexivity | ].
  apply (byte_command_line (I2cSet 0 0x40 0xFE 101) _ Hb).
  vm_compute. reflexivity.
Defined.
